(** * gowitness [server]: the screenshot web service handler

    A shallow embedding of [cmd/server.go].  The handler is a straight-line
    Go function with early returns that talks to an [http.ResponseWriter],
    to the Chrome wrapper ([chrm.Screenshot]) and to the image codecs.  It is
    modelled as a state-passing computation over the response writer and a
    log of the calls made to its collaborators.

    The Go standard library functions the handler relies on are modelled in
    modules that carry the name of their Go package ([strings], [strconv],
    [url], [http]).  Go strings are byte sequences: [string] here is a
    sequence of bytes as well, one [ascii] per byte. *)

From Stdlib Require Import ZArith Lia String Ascii List Bool.
From stdpp Require Import base strings gmap list.

Open Scope string_scope.
Open Scope Z_scope.

(** A Go [error] is represented by its [Error()] text. *)
Definition error := string.

(** A Go [[]byte]. *)
Definition bytes := list Byte.byte.

(** Go functions returning [(T, error)]. *)
Inductive result (T : Type) : Type :=
| Ok (v : T)
| Err (e : error).
Arguments Ok {T} v.
Arguments Err {T} e.

Definition byte_val (c : ascii) : Z := Z.of_N (N_of_ascii c).
Definition byte_chr (n : Z) : ascii := ascii_of_N (Z.to_N n).

Definition dquote : string := String (byte_chr 34) EmptyString.
Definition newline : string := String (byte_chr 10) EmptyString.

(** The verb [%q] of package [fmt] ([strconv.Quote]) on text made of
    printable ASCII without quotes and backslashes, where it escapes
    nothing. *)
Definition quote (s : string) : string := (dquote ++ s ++ dquote)%string.

(** ** Package [unicode] and [unicode/utf8] *)

Module unicode.

Definition MaxLatin1 : Z := 255.

(** [unicode.White_Space] without its Latin-1 part. *)
Definition White_Space_excluding_Latin (r : Z) : bool :=
  (r =? 0x1680) || ((0x2000 <=? r) && (r <=? 0x200a)) ||
  ((0x2028 <=? r) && (r <=? 0x2029)) || (r =? 0x202f) ||
  (r =? 0x205f) || (r =? 0x3000).

Definition IsSpace (r : Z) : bool :=
  if r <=? MaxLatin1 then
    (r =? 9) || (r =? 10) || (r =? 11) || (r =? 12) || (r =? 13) ||
    (r =? 32) || (r =? 0x85) || (r =? 0xA0)
  else White_Space_excluding_Latin r.

End unicode.

Module utf8.

Definition RuneSelf : Z := 0x80.

Definition continuation (b : Z) : bool := (0x80 <=? b) && (b <=? 0xBF).

(** A two-byte sequence: lead byte C2..DF. *)
Definition decode2 (a b : Z) : option Z :=
  if (0xC2 <=? a) && (a <=? 0xDF) && continuation b
  then Some (Z.lor (Z.shiftl (Z.land a 0x1F) 6) (Z.land b 0x3F))
  else None.

(** A three-byte sequence: lead byte E0..EF; the second byte is limited
    to A0..BF after E0 (no overlong forms) and to 80..9F after ED (no
    surrogates). *)
Definition decode3 (a b c : Z) : option Z :=
  let lo := if a =? 0xE0 then 0xA0 else 0x80 in
  let hi := if a =? 0xED then 0x9F else 0xBF in
  if (0xE0 <=? a) && (a <=? 0xEF) && (lo <=? b) && (b <=? hi) && continuation c
  then Some (Z.lor (Z.shiftl (Z.land a 0x0F) 12)
               (Z.lor (Z.shiftl (Z.land b 0x3F) 6) (Z.land c 0x3F)))
  else None.

End utf8.

(** ** Package [strings] *)

Module strings.

Definition is_space1 (a : ascii) : bool :=
  (byte_val a <? utf8.RuneSelf) && unicode.IsSpace (byte_val a).

Definition is_space2 (a b : ascii) : bool :=
  match utf8.decode2 (byte_val a) (byte_val b) with
  | Some r => unicode.IsSpace r
  | None => false
  end.

Definition is_space3 (a b c : ascii) : bool :=
  match utf8.decode3 (byte_val a) (byte_val b) (byte_val c) with
  | Some r => unicode.IsSpace r
  | None => false
  end.

(** [strings.TrimLeftFunc(s, unicode.IsSpace)]: runes are decoded from
    the front for as long as they are white space.  No rune of four bytes
    is white space, and a byte that starts no valid sequence decodes to
    [utf8.RuneError], which is not white space either. *)
Fixpoint TrimLeftSpace (s : string) : string :=
  match s with
  | EmptyString => EmptyString
  | String a s1 =>
      if is_space1 a then TrimLeftSpace s1 else
      match s1 with
      | EmptyString => s
      | String b s2 =>
          if is_space2 a b then TrimLeftSpace s2 else
          match s2 with
          | EmptyString => s
          | String c s3 => if is_space3 a b c then TrimLeftSpace s3 else s
          end
      end
  end.

Fixpoint rev_append (s acc : string) : string :=
  match s with
  | EmptyString => acc
  | String a s' => rev_append s' (String a acc)
  end.

Definition rev (s : string) : string := rev_append s EmptyString.

(** The same scan over the reversed string, where the bytes of a rune
    arrive last byte first ([utf8.DecodeLastRuneInString]). *)
Fixpoint TrimLeftSpace_rev (s : string) : string :=
  match s with
  | EmptyString => EmptyString
  | String a s1 =>
      if is_space1 a then TrimLeftSpace_rev s1 else
      match s1 with
      | EmptyString => s
      | String b s2 =>
          if is_space2 b a then TrimLeftSpace_rev s2 else
          match s2 with
          | EmptyString => s
          | String c s3 => if is_space3 c b a then TrimLeftSpace_rev s3 else s
          end
      end
  end.

(** [strings.TrimRightFunc(s, unicode.IsSpace)]. *)
Definition TrimRightSpace (s : string) : string :=
  rev (TrimLeftSpace_rev (rev s)).

(** [strings.TrimSpace]: all leading and trailing white space, as defined
    by Unicode, removed. *)
Definition TrimSpace (s : string) : string :=
  TrimRightSpace (TrimLeftSpace s).

(** [strings.HasPrefix(s, prefix)]. *)
Definition HasPrefix (s prefix : string) : bool := String.prefix prefix s.

Fixpoint Contains_byte (s : string) (c : ascii) : bool :=
  match s with
  | EmptyString => false
  | String a s' => Ascii.eqb a c || Contains_byte s' c
  end.

(** [strings.Contains(s, substr)]: [substr] starts at some position of
    [s]. *)
Fixpoint Contains (s substr : string) : bool :=
  match s with
  | EmptyString => String.prefix substr EmptyString
  | String _ s' => String.prefix substr s || Contains s' substr
  end.

(** [strings.Cut(s, sep)] for a one-byte separator: the text before the
    first [sep], the text after it, and whether [sep] occurs. *)
Fixpoint Cut_byte (s : string) (sep : ascii) : string * string * bool :=
  match s with
  | EmptyString => (EmptyString, EmptyString, false)
  | String a s' =>
      if Ascii.eqb a sep then (EmptyString, s', true)
      else let '(before, after, found) := Cut_byte s' sep in
           (String a before, after, found)
  end.

(** [strings.ToLower] on ASCII text. *)
Definition lower_byte (a : ascii) : ascii :=
  let n := byte_val a in
  if (65 <=? n) && (n <=? 90) then byte_chr (n + 32) else a.

Fixpoint ToLower (s : string) : string :=
  match s with
  | EmptyString => EmptyString
  | String a s' => String (lower_byte a) (ToLower s')
  end.

End strings.

(** ** Package [strconv] *)

Module strconv.

Definition maxUint64 : Z := 2 ^ 64 - 1.

Definition digit (c : ascii) : option Z :=
  let n := byte_val c in
  if (48 <=? n) && (n <=? 57) then Some (n - 48) else None.

(** The digit loop of [ParseUint(s, 10, 64)]: a byte that is no digit is
    a syntax error, a value beyond [maxUint64] a range error, whichever
    the scan meets first. *)
Fixpoint scan (s : string) (n : Z) : result Z :=
  match s with
  | EmptyString => Ok n
  | String c s' =>
      match digit c with
      | None => Err "invalid syntax"
      | Some d =>
          let n1 := n * 10 + d in
          if maxUint64 <? n1 then Err "value out of range" else scan s' n1
      end
  end.

Definition ParseUint (s : string) : result Z :=
  match s with
  | EmptyString => Err "invalid syntax"
  | _ => scan s 0
  end.

(** [ParseInt(s, 10, 64)]: an optional sign, then [ParseUint], then the
    check against the range of a 64-bit [int]. *)
Definition ParseInt (s : string) : result Z :=
  match s with
  | EmptyString => Err "invalid syntax"
  | String c s' =>
      let neg := Ascii.eqb c "-" in
      let digits := if Ascii.eqb c "+" || neg then s' else s in
      match ParseUint digits with
      | Err e => Err e
      | Ok un =>
          let cutoff := 2 ^ 63 in
          if negb neg && (cutoff <=? un) then Err "value out of range"
          else if neg && (cutoff <? un) then Err "value out of range"
          else Ok (if neg then - un else un)
      end
  end.

(** The text of a [*strconv.NumError]. *)
Definition NumError_text (func num cause : string) : string :=
  ("strconv." ++ func ++ ": parsing " ++ quote num ++ ": " ++ cause)%string.

(** [strconv.Atoi(s)] is [ParseInt(s, 10, 0)] converted to [int]; its
    fast path for short strings computes the same result.  [int] is
    taken to be 64 bits wide. *)
Definition Atoi (s : string) : result Z :=
  match ParseInt s with
  | Ok n => Ok n
  | Err cause => Err (NumError_text "Atoi" s cause)
  end.

End strconv.

(** ** Package [net/url] *)

Module url.

(** [url.Values], a [map[string][]string]. *)
Abbreviation Values := (gmap string (list string)).

(** [Values.Get]: the first value associated with the key, or the empty
    string when there is none. *)
Definition Get (v : Values) (key : string) : string :=
  match v !! key with
  | Some (x :: _) => x
  | _ => EmptyString
  end.

(** [url.URL].  The handler reads [Scheme] only and hands the whole value
    to the browser.  [Authority] holds what stands between the double
    slash and the path; net/url splits it further into user and host. *)
Record URL : Type := {
  Scheme : string;
  Opaque : string;
  Authority : string;
  Path : string;
  ForceQuery : bool;
  RawQuery : string;
  Fragment : string
}.

Definition is_letter (n : Z) : bool :=
  ((97 <=? n) && (n <=? 122)) || ((65 <=? n) && (n <=? 90)).

Definition is_scheme_extra (n : Z) : bool :=
  ((48 <=? n) && (n <=? 57)) || (n =? 43) || (n =? 45) || (n =? 46).

(** The loop of [getScheme] from position [i] on: [acc] holds the bytes
    already passed, last one first. *)
Fixpoint getScheme_from (rawURL rest : string) (i : nat) (acc : string)
  : result (string * string) :=
  match rest with
  | EmptyString => Ok (EmptyString, rawURL)
  | String c rest' =>
      let n := byte_val c in
      if is_letter n then getScheme_from rawURL rest' (S i) (String c acc)
      else if is_scheme_extra n then
        match i with
        | O => Ok (EmptyString, rawURL)
        | _ => getScheme_from rawURL rest' (S i) (String c acc)
        end
      else if n =? 58 then
        match i with
        | O => Err "missing protocol scheme"
        | _ => Ok (strings.rev acc, rest')
        end
      else Ok (EmptyString, rawURL)
  end.

(** [getScheme(rawURL)]: the scheme and what follows the colon; an empty
    scheme and the whole text when it has no scheme. *)
Definition getScheme (rawURL : string) : result (string * string) :=
  getScheme_from rawURL rawURL O EmptyString.

Definition stringContainsCTLByte (s : string) : bool :=
  existsb (fun c => (byte_val c <? 32) || (byte_val c =? 127))
          (list_ascii_of_string s).

Fixpoint count_byte (s : string) (c : ascii) : nat :=
  match s with
  | EmptyString => O
  | String a s' => (if Ascii.eqb a c then 1 else 0)%nat + count_byte s' c
  end.

Definition last_byte_is (s : string) (c : ascii) : bool :=
  match strings.rev s with
  | String a _ => Ascii.eqb a c
  | EmptyString => false
  end.

Definition drop_last (s : string) : string :=
  match strings.rev s with
  | String _ r => strings.rev r
  | EmptyString => EmptyString
  end.

(** [parse(rawURL, false)] up to the split into scheme, opaque part,
    authority, path and query.  The later checks of net/url (percent
    escapes, user name, host and port) are left out: where those reject
    an input this model accepts it. *)
Definition parse (rawURL : string) : result URL :=
  if stringContainsCTLByte rawURL
  then Err "net/url: invalid control character in URL"
  else if String.eqb rawURL "*" then
    Ok {| Scheme := ""; Opaque := ""; Authority := ""; Path := "*";
          ForceQuery := false; RawQuery := ""; Fragment := "" |}
  else
    match getScheme rawURL with
    | Err e => Err e
    | Ok (scheme, rest) =>
        let scheme := strings.ToLower scheme in
        let '(rest, force, query) :=
          if last_byte_is rest "?" && Nat.eqb (count_byte rest "?") 1
          then (drop_last rest, true, EmptyString)
          else let '(before, after, _) := strings.Cut_byte rest "?" in
               (before, false, after) in
        let mk opaque authority path :=
          {| Scheme := scheme; Opaque := opaque; Authority := authority;
             Path := path; ForceQuery := force; RawQuery := query;
             Fragment := "" |} in
        if negb (strings.HasPrefix rest "/") && negb (String.eqb scheme "")
        then Ok (mk rest EmptyString EmptyString)
        else if negb (strings.HasPrefix rest "/") &&
                strings.Contains_byte (fst (fst (strings.Cut_byte rest "/"))) ":"
        then Err "first path segment in URL cannot contain colon"
        else if strings.HasPrefix rest "//" &&
                (negb (String.eqb scheme "") || negb (strings.HasPrefix rest "///"))
        then
          let authority := String.substring 2 (String.length rest - 2) rest in
          let '(host, path, found) := strings.Cut_byte authority "/" in
          Ok (mk EmptyString host (if found then String "/" path else EmptyString))
        else Ok (mk EmptyString EmptyString rest)
    end.

(** The text of a [*url.Error]: [op], the quoted URL and the cause. *)
Definition Error_text (op u cause : string) : string :=
  (op ++ " " ++ quote u ++ ": " ++ cause)%string.

(** [url.Parse(rawURL)]: the fragment is cut off, the rest is parsed. *)
Definition Parse (rawURL : string) : result URL :=
  let '(u, frag, _) := strings.Cut_byte rawURL "#" in
  match parse u with
  | Err e => Err (Error_text "parse" u e)
  | Ok v =>
      Ok {| Scheme := Scheme v; Opaque := Opaque v; Authority := Authority v;
            Path := Path v; ForceQuery := ForceQuery v; RawQuery := RawQuery v;
            Fragment := frag |}
  end.

End url.

(** ** Package [net/http] *)

Module http.

Definition StatusOK : Z := 200.
Definition StatusNotAcceptable : Z := 406.
Definition StatusInternalServerError : Z := 500.

(** [http.Header], a [map[string][]string]. *)
Abbreviation Header := (gmap string (list string)).

(** [Header.Set]: the key gets the single value [value]. *)
Definition Set_ (h : Header) (key value : string) : Header :=
  <[key := [value]]> h.

Definition Get (h : Header) (key : string) : string :=
  match h !! key with
  | Some (x :: _) => x
  | _ => EmptyString
  end.

(** The request as the handler sees it: [r.URL.Query()], the decoded
    query parameters. *)
Record Request : Type := { Query : url.Values }.

(** The state behind an [http.ResponseWriter].  [header] is the map that
    [w.Header()] returns.  Once the status line is out ([wroteHeader]),
    [status] and [sent] keep what went on the wire and later changes of
    [header] have no effect.  [superfluous] counts the [WriteHeader]
    calls that came too late and were dropped. *)
Record ResponseWriter : Type := {
  header : Header;
  wroteHeader : bool;
  status : Z;
  sent : Header;
  body : bytes;
  superfluous : nat
}.

Definition fresh : ResponseWriter :=
  {| header := ∅; wroteHeader := false; status := 0; sent := ∅;
     body := []; superfluous := O |}.

Definition Header_Set (key value : string) (w : ResponseWriter) : ResponseWriter :=
  {| header := Set_ (header w) key value; wroteHeader := wroteHeader w;
     status := status w; sent := sent w; body := body w;
     superfluous := superfluous w |}.

Definition WriteHeader (code : Z) (w : ResponseWriter) : ResponseWriter :=
  if wroteHeader w then
    {| header := header w; wroteHeader := true; status := status w;
       sent := sent w; body := body w; superfluous := S (superfluous w) |}
  else
    {| header := header w; wroteHeader := true; status := code;
       sent := header w; body := body w; superfluous := superfluous w |}.

(** [w.Write(b)]: the first write sends status 200 when no status has
    been sent yet.  The bytes are taken to go through.  A connection that
    breaks is not part of this state: there net/http sends the status as
    here, but refuses the bytes of the write that fails and of every write
    after it, so that [body] says what the handler handed over, not what
    reached the client. *)
Definition Write (b : bytes) (w : ResponseWriter) : ResponseWriter :=
  let w := if wroteHeader w then w else WriteHeader StatusOK w in
  {| header := header w; wroteHeader := wroteHeader w; status := status w;
     sent := sent w; body := (body w ++ b)%list; superfluous := superfluous w |}.

(** [fmt.Fprintln(w, s)]. *)
Definition Fprintln (s : string) (w : ResponseWriter) : ResponseWriter :=
  Write (list_byte_of_string (s ++ newline)%string) w.

(** [http.Error(w, error, code)]. *)
Definition Error (error : string) (code : Z) (w : ResponseWriter) : ResponseWriter :=
  Fprintln error
    (WriteHeader code
       (Header_Set "X-Content-Type-Options" "nosniff"
          (Header_Set "Content-Type" "text/plain; charset=utf-8" w))).

(** What the server does when the handler has returned
    ([finishRequest]): a response that has no status yet gets 200. *)
Definition finishRequest (w : ResponseWriter) : ResponseWriter :=
  if wroteHeader w then w else WriteHeader StatusOK w.

End http.

(** ** The collaborators of the handler *)

(** The process-wide [options]. *)
Record Options : Type := {
  ServerAddr : string;
  AllowInsecureURIs : bool
}.

(** What the handler calls outside this file.  [Image] stands for
    [image.Image].  [jpeg_Encode] writes to the response while it encodes:
    its result is the sequence of chunks it passed to [w.Write], and the
    error it returned, if any. *)
Record Env (Image : Type) : Type := {
  options : Options;
  url_Parse : string -> result url.URL;
  chrm_Screenshot : url.URL -> result bytes;
  image_Decode : bytes -> result Image;
  imaging_Fit : Image -> Z -> Z -> Image;
  jpeg_Encode : Image -> list bytes * option error
}.
Arguments options {Image} _.
Arguments url_Parse {Image} _ _.
Arguments chrm_Screenshot {Image} _ _.
Arguments image_Decode {Image} _ _.
Arguments imaging_Fit {Image} _ _ _ _.
Arguments jpeg_Encode {Image} _ _.

(** The calls a run of the handler makes, in order. *)
Inductive Call (Image : Type) : Type :=
| Call_Atoi (s : string)
| Call_Parse (rawURL : string)
| Call_Screenshot (u : url.URL)
| Call_Decode (buf : bytes)
| Call_Fit (img : Image) (width height : Z)
| Call_Encode (img : Image).
Arguments Call_Atoi {Image} s.
Arguments Call_Parse {Image} rawURL.
Arguments Call_Screenshot {Image} u.
Arguments Call_Decode {Image} buf.
Arguments Call_Fit {Image} img width height.
Arguments Call_Encode {Image} img.

(** The state a run threads through: the response writer [w] and the
    calls made so far. *)
Record State (Image : Type) : Type := {
  w : http.ResponseWriter;
  calls : list (Call Image)
}.
Arguments w {Image} _.
Arguments calls {Image} _.

(** A statement either falls through to the next one or leaves the
    function (Go's [return]). *)
Inductive Flow (A : Type) : Type :=
| Next (a : A)
| Return.
Arguments Next {A} a.
Arguments Return {A}.

Definition M (Image A : Type) : Type := State Image -> Flow A * State Image.

Definition ret {Image A} (a : A) : M Image A := fun s => (Next a, s).

Definition bind {Image A B} (m : M Image A) (k : A -> M Image B) : M Image B :=
  fun s =>
    match m s with
    | (Next a, s') => k a s'
    | (Return, s') => (Return, s')
    end.

Definition return_ {Image A} : M Image A := fun s => (Return, s).

Declare Scope go_scope.
Delimit Scope go_scope with go.

Notation "x <- m ;; k" := (bind m (fun x => k))
  (at level 100, m at next level, right associativity) : go_scope.
Notation "m ;; k" := (bind m (fun _ => k))
  (at level 100, right associativity) : go_scope.

Open Scope go_scope.

Definition when {Image} (b : bool) (m : M Image unit) : M Image unit :=
  if b then m else ret tt.

Definition on_w {Image} (f : http.ResponseWriter -> http.ResponseWriter)
  : M Image unit :=
  fun s => (Next tt, {| w := f (w s); calls := calls s |}).

Definition call {Image A} (c : Call Image) (v : A) : M Image A :=
  fun s => (Next v, {| w := w s; calls := (calls s ++ [c])%list |}).

Definition exec {Image A} (m : M Image A) (s : State Image) : State Image :=
  snd (m s).

Definition start {Image} : State Image := {| w := http.fresh; calls := [] |}.

(** The chunks of an encoder going through [w.Write] one by one. *)
Definition stream (chunks : list bytes) (w : http.ResponseWriter) : http.ResponseWriter :=
  fold_left (fun w chunk => http.Write chunk w) chunks w.

(** ** [handler] *)

Section Handler.

Context {Image : Type}.
Variable E : Env Image.

Definition http_Error (msg : string) (code : Z) : M Image unit :=
  on_w (http.Error msg code).

Definition strconv_Atoi (s : string) : M Image (result Z) :=
  call (Call_Atoi s) (strconv.Atoi s).

Definition url_Parse_ (rawURL : string) : M Image (result url.URL) :=
  call (Call_Parse rawURL) (url_Parse E rawURL).

Definition chrm_Screenshot_ (u : url.URL) : M Image (result bytes) :=
  call (Call_Screenshot u) (chrm_Screenshot E u).

Definition image_Decode_ (buf : bytes) : M Image (result Image) :=
  call (Call_Decode buf) (image_Decode E buf).

Definition imaging_Fit_ (img : Image) (width height : Z) : M Image Image :=
  call (Call_Fit img width height) (imaging_Fit E img width height).

(** [jpeg.Encode(w, img, nil)]: every chunk goes through [w.Write]. *)
Definition jpeg_Encode_ (img : Image) : M Image (option error) :=
  let '(chunks, err) := jpeg_Encode E img in
  call (Call_Encode img) tt ;;
  on_w (stream chunks) ;;
  ret err.

(** [width, err := strconv.Atoi(...); if err != nil || width < 1 { width = 0 }] *)
Definition or_zero (v : result Z) : Z :=
  match v with
  | Ok n => if n <? 1 then 0 else n
  | Err _ => 0
  end.

Definition handler (r : http.Request) : M Image unit :=
  let rawURL := strings.TrimSpace (url.Get (http.Query r) "url") in
  when (String.eqb rawURL "")
    (http_Error "url parameter missing. eg ?url=https://google.com"
                http.StatusNotAcceptable ;;
     return_) ;;

  width <- strconv_Atoi (url.Get (http.Query r) "width") ;;
  let width := or_zero width in

  height <- strconv_Atoi (url.Get (http.Query r) "height") ;;
  let height := or_zero height in

  when ((0 <? width) && (height =? 0))
    (http_Error "received width option without height argument"
                http.StatusNotAcceptable ;;
     return_) ;;

  when ((0 <? height) && (width =? 0))
    (http_Error "received height option without width argument"
                http.StatusNotAcceptable ;;
     return_) ;;

  parsed <- url_Parse_ rawURL ;;
  match parsed with
  | Err err => http_Error err http.StatusInternalServerError ;; return_
  | Ok u =>
      when (negb (AllowInsecureURIs (options E)))
        (when (negb (strings.HasPrefix (url.Scheme u) "http"))
           (http_Error "only http(s) urls are accepted"
                       http.StatusNotAcceptable ;;
            return_)) ;;

      shot <- chrm_Screenshot_ u ;;
      match shot with
      | Err err => http_Error err http.StatusInternalServerError ;; return_
      | Ok buf =>
          when (width =? 0)
            (on_w (http.Header_Set "Content-Type" "image/png") ;;
             on_w (http.Write buf) ;;
             return_) ;;

          decoded <- image_Decode_ buf ;;
          match decoded with
          | Err err => http_Error err http.StatusInternalServerError ;; return_
          | Ok img =>
              dstImage <- imaging_Fit_ img width height ;;

              on_w (http.Header_Set "Content-Type" "image/jpeg") ;;
              err <- jpeg_Encode_ dstImage ;;
              match err with
              | Some err =>
                  http_Error err http.StatusInternalServerError ;; return_
              | None => ret tt
              end
          end
      end
  end.

(** One request served from a fresh response writer. *)
Definition serve (r : http.Request) : State Image := exec (handler r) start.

End Handler.

(** ** Reading requests and responses *)

Definition rawURL_of (r : http.Request) : string :=
  strings.TrimSpace (url.Get (http.Query r) "url").

Definition width_param (r : http.Request) : string := url.Get (http.Query r) "width".
Definition height_param (r : http.Request) : string := url.Get (http.Query r) "height".

(** A dimension is supplied when its parameter is the decimal notation of
    a positive integer. *)
Definition supplied (s : string) : bool :=
  match strconv.Atoi s with
  | Ok n => 0 <? n
  | Err _ => false
  end.

Definition width_without_height (r : http.Request) : bool :=
  supplied (width_param r) && negb (supplied (height_param r)).

Definition height_without_width (r : http.Request) : bool :=
  supplied (height_param r) && negb (supplied (width_param r)).

Definition Content_Type (w : http.ResponseWriter) : string :=
  http.Get (http.sent w) "Content-Type".

(** An error response and nothing else: status [code], a plain text body
    that is exactly the line [msg]. *)
Definition is_error_response (w : http.ResponseWriter) (code : Z) (msg : string) : Prop :=
  http.wroteHeader w = true /\ http.status w = code /\
  Content_Type w = "text/plain; charset=utf-8" /\
  http.body w = list_byte_of_string (msg ++ newline)%string /\
  http.superfluous w = O.

(** An image response and nothing else: status 200, content type [ct],
    the body exactly [img]. *)
Definition is_image_response (w : http.ResponseWriter) (ct : string) (img : bytes) : Prop :=
  http.wroteHeader w = true /\ http.status w = http.StatusOK /\
  Content_Type w = ct /\ http.body w = img /\ http.superfluous w = O.

Definition is_backend_call {Image} (c : Call Image) : bool :=
  match c with
  | Call_Screenshot _ => true
  | _ => false
  end.

Definition backend_invoked {Image} (s : State Image) : bool :=
  existsb is_backend_call (calls s).

(** ** The runs of the handler, exit by exit *)

(** The handler in two stages: the checks that come before the browser is
    asked ([validation]) and what happens from the capture on
    ([deliver]).  [handler_paths] below shows that [paths], which puts the
    two together, is what [serve] computes. *)
Inductive Verdict : Type :=
| Rejected (msg : string) (code : Z)
| Accepted (u : url.URL).

Definition validation {Image} (E : Env Image) (r : http.Request) : Verdict :=
  if String.eqb (rawURL_of r) "" then
    Rejected "url parameter missing. eg ?url=https://google.com" 406
  else if width_without_height r then
    Rejected "received width option without height argument" 406
  else if height_without_width r then
    Rejected "received height option without width argument" 406
  else
    match url_Parse E (rawURL_of r) with
    | Err e => Rejected e 500
    | Ok u =>
        if negb (AllowInsecureURIs (options E)) &&
           negb (strings.HasPrefix (url.Scheme u) "http")
        then Rejected "only http(s) urls are accepted" 406
        else Accepted u
    end.

(** The calls made before the verdict: none for a blank url, the two
    [Atoi] calls for a dimension without the other, and the URL parse in
    all other cases. *)
Definition calls_before {Image} (r : http.Request) : list (Call Image) :=
  if String.eqb (rawURL_of r) "" then []
  else if width_without_height r || height_without_width r then
    [Call_Atoi (width_param r); Call_Atoi (height_param r)]
  else
    [Call_Atoi (width_param r); Call_Atoi (height_param r);
     Call_Parse (rawURL_of r)].

Definition deliver {Image} (E : Env Image) (r : http.Request) (u : url.URL)
  : State Image :=
  let width := or_zero (strconv.Atoi (width_param r)) in
  let height := or_zero (strconv.Atoi (height_param r)) in
  let fail msg code cs := {| w := http.Error msg code http.fresh; calls := cs |} in
  let c4 := (calls_before r ++ [Call_Screenshot u])%list in
  match chrm_Screenshot E u with
  | Err e => fail e 500 c4
  | Ok buf =>
      if negb (supplied (width_param r)) then
        {| w := http.Write buf
                  (http.Header_Set "Content-Type" "image/png" http.fresh);
           calls := c4 |}
      else
        let c5 := (c4 ++ [Call_Decode buf])%list in
        match image_Decode E buf with
        | Err e => fail e 500 c5
        | Ok img =>
            let dst := imaging_Fit E img width height in
            let c7 := (c5 ++ [Call_Fit img width height; Call_Encode dst])%list in
            let streamed :=
              stream (fst (jpeg_Encode E dst))
                (http.Header_Set "Content-Type" "image/jpeg" http.fresh) in
            match snd (jpeg_Encode E dst) with
            | Some e => {| w := http.Error e 500 streamed; calls := c7 |}
            | None => {| w := streamed; calls := c7 |}
            end
        end
  end.

Definition paths {Image} (E : Env Image) (r : http.Request) : State Image :=
  match validation E r with
  | Rejected msg code =>
      {| w := http.Error msg code http.fresh; calls := calls_before r |}
  | Accepted u => deliver E r u
  end.

(** ** Text made of white space only *)

(** The UTF-8 encodings of white space characters, one after the other. *)
Inductive SpaceOnly : string -> Prop :=
| SpaceOnly_nil : SpaceOnly EmptyString
| SpaceOnly_1 a s :
    strings.is_space1 a = true -> SpaceOnly s -> SpaceOnly (String a s)
| SpaceOnly_2 a b s :
    strings.is_space2 a b = true -> SpaceOnly s ->
    SpaceOnly (String a (String b s))
| SpaceOnly_3 a b c s :
    strings.is_space3 a b c = true -> SpaceOnly s ->
    SpaceOnly (String a (String b (String c s))).

(** ** Test doubles *)

(** A decoded picture, as far as the doubles need one: its bounds. *)
Record Bounds : Type := { Dx : Z; Dy : Z }.

(** Collaborators for concrete runs: net/url as modelled above, a browser
    that answers every URL with [shot], a decoder that sees a 400x400
    picture, a resize that clips the bounds, and a JPEG encoder that
    behaves as [enc] says. *)
Definition fakeEnv (allow : bool) (shot : result bytes)
  (enc : list bytes * option error) : Env Bounds :=
  {| options := {| ServerAddr := "localhost:7171"; AllowInsecureURIs := allow |};
     url_Parse := url.Parse;
     chrm_Screenshot := fun _ => shot;
     image_Decode := fun _ => Ok {| Dx := 400; Dy := 400 |};
     imaging_Fit := fun img width height =>
       {| Dx := Z.min (Dx img) width; Dy := Z.min (Dy img) height |};
     jpeg_Encode := fun _ => enc |}.

Definition png_bytes : bytes := [Byte.x89; Byte.x50; Byte.x4e; Byte.x47].

Definition jpeg_ok : list bytes * option error :=
  ([[Byte.xff; Byte.xd8]; [Byte.xff; Byte.xd9]], None).

Definition jpeg_broken_pipe : list bytes * option error :=
  ([[Byte.xff; Byte.xd8]], Some "write: broken pipe").

(** The usual double: default or relaxed mode, a browser and an encoder
    that succeed. *)
Definition goodEnv (allow : bool) : Env Bounds :=
  fakeEnv allow (Ok png_bytes) jpeg_ok.

(** The request [GET /?k1=v1&k2=v2...] with distinct keys. *)
Definition request (kv : list (string * string)) : http.Request :=
  {| http.Query := list_to_map (map (fun p => (fst p, [snd p])) kv) |}.

Definition example_com : url.URL :=
  {| url.Scheme := "https"; url.Opaque := ""; url.Authority := "example.com";
     url.Path := ""; url.ForceQuery := false; url.RawQuery := "";
     url.Fragment := "" |}.

Definition etc_passwd : url.URL :=
  {| url.Scheme := "file"; url.Opaque := ""; url.Authority := "";
     url.Path := "/etc/passwd"; url.ForceQuery := false; url.RawQuery := "";
     url.Fragment := "" |}.

(** A tab, a space, a no-break space (C2 A0) and an em space (E2 80 83). *)
Definition blank_text : string :=
  String (byte_chr 9) (String (byte_chr 32)
    (String (byte_chr 0xC2) (String (byte_chr 0xA0)
      (String (byte_chr 0xE2) (String (byte_chr 0x80) (String (byte_chr 0x83)
        EmptyString)))))).


(** ** The validator as the specification words it *)

(** Rule 2: a dimension is parsed as an integer; a parse failure or a
    value that is not positive counts as not supplied, that is 0. *)
Definition spec_dimension (s : string) : Z :=
  match strconv.Atoi s with
  | Err _ => 0
  | Ok n => if n <=? 0 then 0 else n
  end.

Inductive Failure : Type :=
| MissingURL
| WidthWithoutHeight
| HeightWithoutWidth
| MalformedURL (e : error)
| InsecureScheme.

Definition Rule (Image : Type) : Type := Env Image -> http.Request -> option Failure.

Definition rule_blank_url {Image} : Rule Image := fun _ r =>
  if String.eqb (rawURL_of r) "" then Some MissingURL else None.

(** Dimension parsing never fails by itself. *)
Definition rule_dimension_parsing {Image} : Rule Image := fun _ _ => None.

Definition rule_width_without_height {Image} : Rule Image := fun _ r =>
  if (0 <? spec_dimension (width_param r)) && (spec_dimension (height_param r) =? 0)
  then Some WidthWithoutHeight else None.

Definition rule_height_without_width {Image} : Rule Image := fun _ r =>
  if (0 <? spec_dimension (height_param r)) && (spec_dimension (width_param r) =? 0)
  then Some HeightWithoutWidth else None.

Definition rule_url_parse {Image} : Rule Image := fun E r =>
  match url_Parse E (rawURL_of r) with
  | Err e => Some (MalformedURL e)
  | Ok _ => None
  end.

Definition rule_scheme {Image} : Rule Image := fun E r =>
  match url_Parse E (rawURL_of r) with
  | Ok u =>
      if AllowInsecureURIs (options E) then None
      else if strings.HasPrefix (url.Scheme u) "http" then None
      else Some InsecureScheme
  | Err _ => None
  end.

Definition rules {Image} : list (Rule Image) :=
  [rule_blank_url; rule_dimension_parsing; rule_width_without_height;
   rule_height_without_width; rule_url_parse; rule_scheme].

(** The first rule of the list that fails decides. *)
Fixpoint first_failure {Image} (rs : list (Rule Image)) (E : Env Image)
  (r : http.Request) : option Failure :=
  match rs with
  | [] => None
  | rule :: rs' =>
      match rule E r with
      | Some f => Some f
      | None => first_failure rs' E r
      end
  end.

Definition status_of (f : Failure) : Z :=
  match f with
  | MalformedURL _ => 500
  | _ => 406
  end.

Definition message_of (f : Failure) : string :=
  match f with
  | MissingURL => "url parameter missing. eg ?url=https://google.com"
  | WidthWithoutHeight => "received width option without height argument"
  | HeightWithoutWidth => "received height option without width argument"
  | MalformedURL e => e
  | InsecureScheme => "only http(s) urls are accepted"
  end.

(** ** Terminal responses *)

(** Whether the call [c] came back with an error. *)
Definition call_failed {Image} (E : Env Image) (c : Call Image) : bool :=
  match c with
  | Call_Atoi _ => false
  | Call_Parse rawURL =>
      match url_Parse E rawURL with Err _ => true | Ok _ => false end
  | Call_Screenshot u =>
      match chrm_Screenshot E u with Err _ => true | Ok _ => false end
  | Call_Decode buf =>
      match image_Decode E buf with Err _ => true | Ok _ => false end
  | Call_Fit _ _ _ => false
  | Call_Encode img =>
      match snd (jpeg_Encode E img) with Some _ => true | None => false end
  end.

Definition some_call_failed {Image} (E : Env Image) (s : State Image) : bool :=
  existsb (call_failed E) (calls s).

(** The response as it leaves the server: one error response and nothing
    else, or, when no call failed, one image response and nothing else. *)
Definition one_terminal_response {Image} (E : Env Image) (s : State Image) : Prop :=
  let out := http.finishRequest (w s) in
  (exists code msg, is_error_response out code msg) \/
  (some_call_failed E s = false /\
   exists ct img, (ct = "image/png" \/ ct = "image/jpeg") /\
                  is_image_response out ct img).

(** The JPEG encoder failed in this run after it had written to the
    response. *)
Definition encoder_failed_midway {Image} (E : Env Image) (s : State Image) : bool :=
  existsb (fun c =>
             match c with
             | Call_Encode img =>
                 match jpeg_Encode E img with
                 | (_ :: _, Some _) => true
                 | _ => false
                 end
             | _ => false
             end) (calls s).

(** The calls of a run that leave the process: all but [strconv.Atoi]. *)
Definition external {Image} (cs : list (Call Image)) : list (Call Image) :=
  List.filter (fun c => match c with Call_Atoi _ => false | _ => true end) cs.

(** ** A statement the handler does not meet on every request *)

(** Every request with one dimension only gets the 406 whose message
    names the missing dimension, and the browser is not asked. *)
Definition names_missing_dimension {Image} (E : Env Image) (r : http.Request) : Prop :=
  width_without_height r || height_without_width r = true ->
  is_error_response (w (serve E r)) http.StatusNotAcceptable
    (if width_without_height r
     then "received width option without height argument"
     else "received height option without width argument") /\
  backend_invoked (serve E r) = false.

(** ** [serverCmd] and [init] *)

(** [init] binds the two flags of the command to [options]; until a flag
    is given on the command line each field holds the default of its
    flag. *)
Record Flag : Type := {
  Name : string;
  Shorthand : string;
  DefValue : string;
  Usage : string
}.

Definition init_flags : list Flag :=
  [ {| Name := "address"; Shorthand := "a"; DefValue := "localhost:7171";
       Usage := "server listening address" |};
    {| Name := "allow-insecure-uri"; Shorthand := "A"; DefValue := "false";
       Usage := "allow uris that dont start with http(s)" |} ].

Definition init_options : Options :=
  {| ServerAddr := "localhost:7171"; AllowInsecureURIs := false |}.

(** What [Run] does to the outside, in order: lines of the log, the
    registration of [handler] for a pattern, the call that listens. *)
Inductive Level : Type := Warn | Info | Fatal.

Inductive Effect : Type :=
| Log (level : Level) (fields : list (string * string)) (err : option error)
      (msg : string)
| HandleFunc (pattern : string)
| ListenAndServe (addr : string).

Definition exposure_warning : string :=
  "exposing this server to other networks is dangerous! see the server command help for more information".

(** [serverCmd.Run].  [listen addr] is what [http.ListenAndServe(addr, nil)]
    returns if it returns at all; [log.Fatal] ends the process. *)
Definition Run (opts : Options) (listen : string -> option error) : list Effect :=
  ((if negb (strings.Contains (ServerAddr opts) "localhost")
    then [Log Warn [] None exposure_warning]
    else []) ++
   [HandleFunc "/";
    Log Info [("address", ServerAddr opts)] None "server listening";
    ListenAndServe (ServerAddr opts)] ++
   match listen (ServerAddr opts) with
   | Some err => [Log Fatal [] (Some err) "webserver failed"]
   | None => []
   end)%list.

Definition is_warning (e : Effect) : bool :=
  match e with
  | Log Warn _ _ _ => true
  | _ => false
  end.

(** The collaborators [E] with other [options]. *)
Definition with_options {Image} (opts : Options) (E : Env Image) : Env Image :=
  {| options := opts;
     url_Parse := url_Parse E;
     chrm_Screenshot := chrm_Screenshot E;
     image_Decode := image_Decode E;
     imaging_Fit := imaging_Fit E;
     jpeg_Encode := jpeg_Encode E |}.

(** [E] with the flag [--allow-insecure-uri] given. *)
Definition relaxed {Image} (E : Env Image) : Env Image :=
  with_options {| ServerAddr := ServerAddr (options E);
                  AllowInsecureURIs := true |} E.

(** The response as it leaves the server once the handler has returned. *)
Definition response {Image} (E : Env Image) (r : http.Request) : http.ResponseWriter :=
  http.finishRequest (w (serve E r)).

(** The request [?url=https://example.com&width=200&height=100]. *)
Definition resize_request : http.Request :=
  request [("url", "https://example.com"); ("width", "200"); ("height", "100")].

(** Collaborators like [goodEnv], with a decoder that knows no format. *)
Definition undecodableEnv : Env Bounds :=
  {| options := init_options;
     url_Parse := url.Parse;
     chrm_Screenshot := fun _ => Ok png_bytes;
     image_Decode := fun _ => Err "image: unknown format";
     imaging_Fit := fun img _ _ => img;
     jpeg_Encode := fun _ => jpeg_ok |}.

(** A byte of an address written as digits, dots and colons. *)
Definition ip_literal_byte (c : ascii) : bool :=
  let n := byte_val c in
  ((48 <=? n) && (n <=? 57)) || (n =? 46) || (n =? 58).

(** [s] begins with the encoding of a white space character. *)
Definition starts_with_space (s : string) : bool :=
  match s with
  | EmptyString => false
  | String a s1 =>
      strings.is_space1 a ||
      match s1 with
      | EmptyString => false
      | String b s2 =>
          strings.is_space2 a b ||
          match s2 with
          | EmptyString => false
          | String c _ => strings.is_space3 a b c
          end
      end
  end.

(** * Properties *)

Lemma or_zero_positive (s : string) :
  (0 <? or_zero (strconv.Atoi s)) = supplied s.
Proof.
  unfold or_zero, supplied.
  destruct (strconv.Atoi s) as [n|e]; [|reflexivity].
  destruct (n <? 1) eqn:Hn; [apply Z.ltb_lt in Hn | apply Z.ltb_ge in Hn].
  - symmetry. apply Z.ltb_ge. lia.
  - reflexivity.
Qed.

Lemma or_zero_zero (s : string) :
  (or_zero (strconv.Atoi s) =? 0) = negb (supplied s).
Proof.
  unfold or_zero, supplied.
  destruct (strconv.Atoi s) as [n|e]; [|reflexivity].
  destruct (n <? 1) eqn:Hn; [apply Z.ltb_lt in Hn | apply Z.ltb_ge in Hn].
  - replace (0 <? n) with false by (symmetry; apply Z.ltb_ge; lia). reflexivity.
  - replace (0 <? n) with true by (symmetry; apply Z.ltb_lt; lia).
    apply Z.eqb_neq. lia.
Qed.

Lemma handler_paths {Image} (E : Env Image) (r : http.Request) :
  serve E r = paths E r.
Proof.
  unfold serve, exec, handler, paths, validation, deliver, calls_before,
    width_without_height, height_without_width.
  fold (rawURL_of r) (width_param r) (height_param r).
  cbv beta iota zeta delta
    [bind when ret return_ http_Error on_w call start w calls snd
     strconv_Atoi url_Parse_ chrm_Screenshot_ image_Decode_ imaging_Fit_ jpeg_Encode_].
  rewrite !or_zero_positive, !or_zero_zero.
  destruct (String.eqb (rawURL_of r) ""); [reflexivity|].
  destruct (supplied (width_param r)) eqn:Hw;
    destruct (supplied (height_param r)) eqn:Hh; cbn [andb orb negb app];
    try reflexivity;
    (destruct (url_Parse E (rawURL_of r)) as [u|e]; [|reflexivity]);
    (destruct (AllowInsecureURIs (options E));
     destruct (strings.HasPrefix (url.Scheme u) "http"); cbn [andb negb];
     try reflexivity);
    (destruct (chrm_Screenshot E u) as [buf|e]; [|reflexivity]);
    try reflexivity;
    (destruct (image_Decode E buf) as [img|e]; [|reflexivity]);
    (destruct (jpeg_Encode E _) as [chunks [e|]]; reflexivity).
Qed.

(** ** Facts about the response writer *)

Lemma Error_fresh (msg : string) (code : Z) :
  is_error_response (http.Error msg code http.fresh) code msg.
Proof. repeat split. Qed.

Lemma Error_after_Content_Type (ct msg : string) (code : Z) :
  is_error_response
    (http.Error msg code (http.Header_Set "Content-Type" ct http.fresh)) code msg.
Proof. repeat split. Qed.

Lemma png_response (buf : bytes) :
  is_image_response
    (http.Write buf (http.Header_Set "Content-Type" "image/png" http.fresh))
    "image/png" buf.
Proof. repeat split. Qed.

Lemma stream_wrote (chunks : list bytes) (w : http.ResponseWriter) :
  http.wroteHeader w = true ->
  http.wroteHeader (stream chunks w) = true /\
  http.status (stream chunks w) = http.status w /\
  http.sent (stream chunks w) = http.sent w /\
  http.body (stream chunks w) = (http.body w ++ concat chunks)%list /\
  http.superfluous (stream chunks w) = http.superfluous w.
Proof.
  revert w. induction chunks as [|c cs IH]; intros w Hw; cbn [stream fold_left concat].
  - rewrite app_nil_r. auto.
  - fold (stream cs (http.Write c w)).
    destruct (IH (http.Write c w)) as (H1 & H2 & H3 & H4 & H5).
    + unfold http.Write. rewrite Hw. exact Hw.
    + rewrite H1, H2, H3, H4, H5. unfold http.Write. rewrite Hw. cbn.
      rewrite <- app_assoc. auto.
Qed.

Lemma jpeg_response (chunks : list bytes) :
  is_image_response
    (http.finishRequest
       (stream chunks (http.Header_Set "Content-Type" "image/jpeg" http.fresh)))
    "image/jpeg" (concat chunks).
Proof.
  destruct chunks as [|c cs]; [repeat split|].
  set (w0 := http.Header_Set _ _ _).
  change (stream (c :: cs) w0) with (stream cs (http.Write c w0)).
  set (w1 := http.Write c w0).
  destruct (stream_wrote cs w1 eq_refl) as (H1 & H2 & H3 & H4 & H5).
  unfold is_image_response, Content_Type, http.finishRequest.
  rewrite H1, H2, H3, H4, H5. repeat split; assumption.
Qed.

(** ** Blank text *)

Lemma is_space2_lead (a b : ascii) :
  strings.is_space2 a b = true -> 0xC2 <= byte_val a <= 0xDF.
Proof.
  unfold strings.is_space2, utf8.decode2.
  destruct (0xC2 <=? byte_val a) eqn:H1; [|discriminate].
  destruct (byte_val a <=? 0xDF) eqn:H2; [|discriminate].
  intros _. apply Z.leb_le in H1, H2. lia.
Qed.

Lemma is_space3_lead (a b c : ascii) :
  strings.is_space3 a b c = true -> 0xE0 <= byte_val a.
Proof.
  unfold strings.is_space3, utf8.decode3.
  destruct (0xE0 <=? byte_val a) eqn:H1; [|discriminate].
  intros _. apply Z.leb_le in H1. exact H1.
Qed.

Lemma is_space1_ascii (a : ascii) :
  strings.is_space1 a = true -> byte_val a < 0x80.
Proof.
  unfold strings.is_space1. intros H.
  apply andb_true_iff in H as [H _]. apply Z.ltb_lt in H. exact H.
Qed.

Lemma not_space1 (a : ascii) : 0x80 <= byte_val a -> strings.is_space1 a = false.
Proof.
  intros H. destruct (strings.is_space1 a) eqn:H1; [|reflexivity].
  apply is_space1_ascii in H1. lia.
Qed.

Lemma not_space2 (a b : ascii) : 0xE0 <= byte_val a -> strings.is_space2 a b = false.
Proof.
  intros H. destruct (strings.is_space2 a b) eqn:H2; [|reflexivity].
  apply is_space2_lead in H2. lia.
Qed.

Lemma TrimLeftSpace_SpaceOnly (s : string) :
  SpaceOnly s -> strings.TrimLeftSpace s = EmptyString.
Proof.
  induction 1 as [|a s Ha _ IH|a b s Hab _ IH|a b c s Habc _ IH].
  - reflexivity.
  - cbn [strings.TrimLeftSpace]. rewrite Ha. exact IH.
  - cbn [strings.TrimLeftSpace].
    rewrite not_space1 by (apply is_space2_lead in Hab; lia).
    rewrite Hab. exact IH.
  - cbn [strings.TrimLeftSpace].
    pose proof (is_space3_lead _ _ _ Habc) as Hl.
    rewrite not_space1 by lia. rewrite not_space2 by lia.
    rewrite Habc. exact IH.
Qed.

Lemma TrimSpace_SpaceOnly (s : string) :
  SpaceOnly s -> strings.TrimSpace s = EmptyString.
Proof.
  intros H. unfold strings.TrimSpace.
  rewrite (TrimLeftSpace_SpaceOnly s H). reflexivity.
Qed.

(** ** Runs of the handler *)

Lemma or_zero_spec (s : string) : or_zero (strconv.Atoi s) = spec_dimension s.
Proof.
  unfold or_zero, spec_dimension.
  destruct (strconv.Atoi s) as [n|e]; [|reflexivity].
  destruct (n <? 1) eqn:H1; destruct (n <=? 0) eqn:H2; try reflexivity.
  - apply Z.ltb_lt in H1. apply Z.leb_gt in H2. lia.
  - apply Z.ltb_ge in H1. apply Z.leb_le in H2. lia.
Qed.

Lemma supplied_spec (s : string) : supplied s = (0 <? spec_dimension s).
Proof. rewrite <- or_zero_spec. symmetry. apply or_zero_positive. Qed.

Lemma not_supplied_spec (s : string) : negb (supplied s) = (spec_dimension s =? 0).
Proof. rewrite <- or_zero_spec. symmetry. apply or_zero_zero. Qed.

Section Runs.

Context {Image : Type}.
Variable E : Env Image.
Variable r : http.Request.

Lemma serve_rejected (msg : string) (code : Z) :
  validation E r = Rejected msg code ->
  serve E r = {| w := http.Error msg code http.fresh; calls := calls_before r |}.
Proof. intros H. rewrite handler_paths. unfold paths. rewrite H. reflexivity. Qed.

Lemma serve_accepted (u : url.URL) :
  validation E r = Accepted u -> serve E r = deliver E r u.
Proof. intros H. rewrite handler_paths. unfold paths. rewrite H. reflexivity. Qed.

Lemma calls_before_no_backend :
  existsb is_backend_call (calls_before (Image := Image) r) = false.
Proof.
  unfold calls_before.
  destruct (String.eqb (rawURL_of r) ""); [reflexivity|].
  destruct (width_without_height r || height_without_width r); reflexivity.
Qed.

Lemma deliver_calls (u : url.URL) :
  exists tail,
    calls (deliver E r u) = (calls_before r ++ Call_Screenshot u :: tail)%list /\
    existsb is_backend_call tail = false.
Proof.
  unfold deliver.
  destruct (chrm_Screenshot E u) as [buf|e]; [|exists []; split; reflexivity].
  destruct (negb (supplied (width_param r))); [exists []; split; reflexivity|].
  destruct (image_Decode E buf) as [img|e].
  - eexists [_; _; _].
    destruct (snd (jpeg_Encode E _)); cbn [calls];
      rewrite <- !app_assoc; split; reflexivity.
  - eexists [_]. cbn [calls]. rewrite <- !app_assoc. split; reflexivity.
Qed.

Lemma accepted_inv (u : url.URL) :
  validation E r = Accepted u ->
  String.eqb (rawURL_of r) "" = false /\
  width_without_height r = false /\ height_without_width r = false /\
  url_Parse E (rawURL_of r) = Ok u /\
  (AllowInsecureURIs (options E) = true \/
   strings.HasPrefix (url.Scheme u) "http" = true).
Proof.
  unfold validation.
  destruct (String.eqb (rawURL_of r) ""); [discriminate|].
  destruct (width_without_height r); [discriminate|].
  destruct (height_without_width r); [discriminate|].
  destruct (url_Parse E (rawURL_of r)) as [u0|e]; [|discriminate].
  destruct (AllowInsecureURIs (options E));
    destruct (strings.HasPrefix (url.Scheme u0) "http") eqn:Hp;
    cbn [andb negb]; try discriminate; intros [= <-]; repeat split; auto.
Qed.

Lemma accepted_calls_before (u : url.URL) :
  validation E r = Accepted u ->
  calls_before (Image := Image) r =
  [Call_Atoi (width_param r); Call_Atoi (height_param r);
   Call_Parse (rawURL_of r)].
Proof.
  intros H. apply accepted_inv in H as (H1 & H2 & H3 & _).
  unfold calls_before. rewrite H1, H2, H3. reflexivity.
Qed.

Lemma existsb_backend_In (cs : list (Call Image)) (u : url.URL) :
  existsb is_backend_call cs = false -> ~ In (Call_Screenshot u) cs.
Proof.
  intros H Hin.
  assert (Hex : existsb is_backend_call cs = true)
    by (apply existsb_exists; exists (Call_Screenshot u); auto).
  congruence.
Qed.

Lemma rejected_no_backend (msg : string) (code : Z) :
  validation E r = Rejected msg code -> backend_invoked (serve E r) = false.
Proof.
  intros H. rewrite (serve_rejected _ _ H).
  unfold backend_invoked. cbn [calls]. apply calls_before_no_backend.
Qed.

Lemma accepted_backend (u : url.URL) :
  validation E r = Accepted u -> In (Call_Screenshot u) (calls (serve E r)).
Proof.
  intros H. rewrite (serve_accepted _ H).
  destruct (deliver_calls u) as (tail & -> & _).
  apply in_or_app. right. left. reflexivity.
Qed.

(** The browser is asked for [u] only when the checks accepted [u]. *)
Lemma backend_call_inv (u : url.URL) :
  In (Call_Screenshot u) (calls (serve E r)) -> validation E r = Accepted u.
Proof.
  intros Hin. destruct (validation E r) as [msg code|u0] eqn:Hv.
  - exfalso. revert Hin. apply existsb_backend_In.
    exact (rejected_no_backend _ _ Hv).
  - rewrite (serve_accepted _ Hv) in Hin.
    destruct (deliver_calls u0) as (tail & Hc & Ht). rewrite Hc in Hin.
    apply in_app_or in Hin as [Hin|[Hin|Hin]].
    + exfalso. revert Hin. apply existsb_backend_In, calls_before_no_backend.
    + congruence.
    + exfalso. revert Hin. apply existsb_backend_In, Ht.
Qed.

(** The handler parses the URL only when the [url] parameter is present
    and the dimensions have passed their checks, and then it always does. *)
Lemma parse_reached :
  In (Call_Parse (rawURL_of r)) (calls (serve E r)) <->
  rawURL_of r <> "" /\
  width_without_height r = false /\ height_without_width r = false.
Proof.
  split.
  - intros Hin. destruct (validation E r) as [msg code|u] eqn:Hv.
    + rewrite (serve_rejected _ _ Hv) in Hin. cbn [calls] in Hin.
      revert Hin. unfold calls_before.
      destruct (String.eqb (rawURL_of r) "") eqn:H1; [intros []|].
      apply String.eqb_neq in H1.
      destruct (width_without_height r); destruct (height_without_width r);
        cbn [orb In]; intuition discriminate.
    + apply accepted_inv in Hv as (H1 & H2 & H3 & _).
      apply String.eqb_neq in H1. auto.
  - intros (H1 & H2 & H3). apply String.eqb_neq in H1.
    assert (Hc : exists tail : list (Call Image),
               calls (serve E r) =
               ([Call_Atoi (width_param r); Call_Atoi (height_param r);
                 Call_Parse (rawURL_of r)] ++ tail)%list).
    { destruct (validation E r) as [msg code|u] eqn:Hv.
      - rewrite (serve_rejected _ _ Hv). cbn [calls]. unfold calls_before.
        rewrite H1, H2, H3. exists []. reflexivity.
      - rewrite (serve_accepted _ Hv).
        destruct (deliver_calls u) as (tail & -> & _).
        unfold calls_before. rewrite H1, H2, H3. cbn [orb].
        eexists. reflexivity. }
    destruct Hc as (tail & ->). cbn [app In]. auto.
Qed.

(** In default mode the scheme of every URL that reaches the browser
    starts with [http]. *)
Lemma backend_scheme_prefix (u : url.URL) :
  AllowInsecureURIs (options E) = false ->
  In (Call_Screenshot u) (calls (serve E r)) ->
  strings.HasPrefix (url.Scheme u) "http" = true.
Proof.
  intros Hd Hin. apply backend_call_inv, accepted_inv in Hin.
  destruct Hin as (_ & _ & _ & _ & [H|H]); congruence.
Qed.

End Runs.

(** ** The properties of the specification *)

Section Specification.

Context {Image : Type}.
Variable E : Env Image.
Variable r : http.Request.

(** C9.  A request whose [url] parameter is empty or made of white space
    only is answered with status 406 and the guidance message, and the
    handler makes no call at all on the way: no dimension is parsed, the
    URL is not parsed, the browser is not asked. *)
Theorem C9_blank_url_not_acceptable :
  SpaceOnly (url.Get (http.Query r) "url") ->
  is_error_response (w (serve E r)) http.StatusNotAcceptable
    "url parameter missing. eg ?url=https://google.com" /\
  calls (serve E r) = [].
Proof.
  intros H. apply TrimSpace_SpaceOnly in H. fold (rawURL_of r) in H.
  rewrite handler_paths. unfold paths, validation, calls_before.
  rewrite H. cbn [String.eqb w calls].
  split; [apply Error_fresh | reflexivity].
Qed.

(** C3.  When neither width nor height is supplied and the capture
    succeeds with the bytes [buf], the response has status 200, content
    type [image/png] and a body equal to [buf] byte for byte; the run
    ends with the capture, nothing is decoded or encoded. *)
Theorem C3_png_pass_through (u : url.URL) (buf : bytes) :
  supplied (width_param r) = false ->
  supplied (height_param r) = false ->
  In (Call_Screenshot u) (calls (serve E r)) ->
  chrm_Screenshot E u = Ok buf ->
  is_image_response (w (serve E r)) "image/png" buf /\
  calls (serve E r) =
  [Call_Atoi (width_param r); Call_Atoi (height_param r);
   Call_Parse (rawURL_of r); Call_Screenshot u].
Proof.
  intros Hw _ Hin Hshot. apply backend_call_inv in Hin.
  rewrite (serve_accepted _ _ _ Hin). unfold deliver.
  rewrite Hshot, Hw, (accepted_calls_before _ _ _ Hin). cbn [negb w calls app].
  split; [apply png_response | reflexivity].
Qed.

(** C6.  When the checks have passed and the capture of [u] fails with
    the error [e], the response has status 500 and its body is the text
    of [e]; nothing else is written, and the run ends with the capture. *)
Theorem C6_capture_failure (u : url.URL) (e : error) :
  In (Call_Screenshot u) (calls (serve E r)) ->
  chrm_Screenshot E u = Err e ->
  is_error_response (w (serve E r)) http.StatusInternalServerError e /\
  calls (serve E r) =
  [Call_Atoi (width_param r); Call_Atoi (height_param r);
   Call_Parse (rawURL_of r); Call_Screenshot u].
Proof.
  intros Hin Hshot. apply backend_call_inv in Hin.
  rewrite (serve_accepted _ _ _ Hin). unfold deliver.
  rewrite Hshot, (accepted_calls_before _ _ _ Hin). cbn [w calls app].
  split; [apply Error_fresh | reflexivity].
Qed.

(** C7.  In relaxed mode there is no scheme check: when the handler's
    parse of the [url] succeeds with [u], which it attempts once the
    parameter is present and the dimensions have passed their checks, the
    browser is asked for [u], whatever its scheme. *)
Theorem C7_relaxed_mode_no_scheme_filter (u : url.URL) :
  AllowInsecureURIs (options E) = true ->
  In (Call_Parse (rawURL_of r)) (calls (serve E r)) ->
  url_Parse E (rawURL_of r) = Ok u ->
  In (Call_Screenshot u) (calls (serve E r)).
Proof.
  intros Ha Hin Hp. apply parse_reached in Hin as (H1 & H2 & H3).
  apply accepted_backend.
  unfold validation. apply String.eqb_neq in H1.
  rewrite H1, H2, H3, Hp, Ha. reflexivity.
Qed.

(** C10.  In default mode a [url] that the handler parses to a URL
    without scheme is rejected by the scheme check: status 406 with the
    message of that check, and the browser is not asked.  Whatever else
    the request carries, a [url] that parses to a URL without scheme is
    answered with 406 and never with 500.  A status 500 on a run that did
    not ask the browser means that [url.Parse] rejected the text.
    net/url parses [google.com] to a URL with an empty scheme. *)
Theorem C10_no_scheme_is_insecure_not_malformed :
  (forall u : url.URL,
      AllowInsecureURIs (options E) = false ->
      In (Call_Parse (rawURL_of r)) (calls (serve E r)) ->
      url_Parse E (rawURL_of r) = Ok u ->
      url.Scheme u = "" ->
      is_error_response (w (serve E r)) http.StatusNotAcceptable
        "only http(s) urls are accepted" /\
      backend_invoked (serve E r) = false) /\
  (forall u : url.URL,
      AllowInsecureURIs (options E) = false ->
      url_Parse E (rawURL_of r) = Ok u ->
      url.Scheme u = "" ->
      http.status (w (serve E r)) = http.StatusNotAcceptable /\
      http.status (w (serve E r)) <> http.StatusInternalServerError /\
      backend_invoked (serve E r) = false) /\
  (http.status (w (serve E r)) = http.StatusInternalServerError ->
   backend_invoked (serve E r) = false ->
   exists e, url_Parse E (rawURL_of r) = Err e /\
             is_error_response (w (serve E r))
               http.StatusInternalServerError e) /\
  (exists u, url.Parse "google.com" = Ok u /\ url.Scheme u = "").
Proof.
  split; [|split; [|split]].
  - intros u Ha Hin Hp Hs. apply parse_reached in Hin as (H1 & H2 & H3).
    apply String.eqb_neq in H1.
    assert (Hv : validation E r = Rejected "only http(s) urls are accepted" 406).
    { unfold validation. rewrite H1, H2, H3, Hp, Ha, Hs. reflexivity. }
    split.
    + rewrite (serve_rejected _ _ _ _ Hv). apply Error_fresh.
    + exact (rejected_no_backend _ _ _ _ Hv).
  - intros u Ha Hp Hs.
    assert (Hv : exists msg, validation E r = Rejected msg 406).
    { unfold validation. rewrite Hp, Ha, Hs.
      destruct (String.eqb (rawURL_of r) ""); [eexists; reflexivity|].
      destruct (width_without_height r); [eexists; reflexivity|].
      destruct (height_without_width r); eexists; reflexivity. }
    destruct Hv as (msg & Hv).
    split; [|split].
    + rewrite (serve_rejected _ _ _ _ Hv). reflexivity.
    + rewrite (serve_rejected _ _ _ _ Hv).
      change (http.status (w {| w := http.Error msg 406 http.fresh;
                                calls := calls_before r |})) with 406.
      unfold http.StatusInternalServerError. lia.
    + exact (rejected_no_backend _ _ _ _ Hv).
  - intros Hst Hnb.
    destruct (validation E r) as [msg code|u] eqn:Hv.
    + rewrite (serve_rejected _ _ _ _ Hv) in Hst |- *. cbn [w] in Hst |- *.
      change (code = 500) in Hst. subst code.
      revert Hv. unfold validation.
      destruct (String.eqb (rawURL_of r) ""); [discriminate|].
      destruct (width_without_height r); [discriminate|].
      destruct (height_without_width r); [discriminate|].
      destruct (url_Parse E (rawURL_of r)) as [u|e].
      * destruct (_ && _); discriminate.
      * intros [= <-]. exists e. split; [reflexivity|apply Error_fresh].
    + exfalso. pose proof (accepted_backend _ _ _ Hv) as Hin.
      revert Hin. apply existsb_backend_In. exact Hnb.
  - eexists. split; reflexivity.
Qed.

(** C5.  The checks apply in the order blank url, dimension parsing,
    width without height, height without width, URL parse, scheme, and
    the first one that fails decides alone: the response is the error
    response of that failure and the browser is not asked; when none
    fails the browser is asked for the parsed URL.  In particular, a
    [url] that fails to parse after the earlier checks have passed is
    answered with status 500 and the text of the parse error, and a
    request that breaks a dimension rule is answered with 406 even when
    its [url] does not parse. *)
Theorem C5_first_failing_rule_decides :
  match first_failure rules E r with
  | Some f =>
      is_error_response (w (serve E r)) (status_of f) (message_of f) /\
      backend_invoked (serve E r) = false
  | None =>
      exists u, url_Parse E (rawURL_of r) = Ok u /\
                In (Call_Screenshot u) (calls (serve E r))
  end /\
  (forall e,
      first_failure
        [rule_blank_url; rule_dimension_parsing; rule_width_without_height;
         rule_height_without_width] E r = None ->
      url_Parse E (rawURL_of r) = Err e ->
      is_error_response (w (serve E r)) http.StatusInternalServerError e) /\
  (forall e,
      url_Parse E (rawURL_of r) = Err e ->
      width_without_height r || height_without_width r = true ->
      http.status (w (serve E r)) = http.StatusNotAcceptable).
Proof.
  assert (Hrej : forall msg code,
             validation E r = Rejected msg code ->
             is_error_response (w (serve E r)) code msg /\
             backend_invoked (serve E r) = false).
  { intros msg code Hv. split.
    - rewrite (serve_rejected _ _ _ _ Hv). apply Error_fresh.
    - exact (rejected_no_backend _ _ _ _ Hv). }
  cbn [first_failure rules].
  unfold rule_blank_url, rule_dimension_parsing, rule_width_without_height,
    rule_height_without_width, rule_url_parse, rule_scheme.
  rewrite <- !supplied_spec, <- !not_supplied_spec.
  fold (width_without_height r) (height_without_width r).
  split; [|split].
  - destruct (String.eqb (rawURL_of r) "") eqn:H1.
    { apply Hrej. unfold validation. rewrite H1. reflexivity. }
    destruct (width_without_height r) eqn:H2.
    { apply Hrej. unfold validation. rewrite H1, H2. reflexivity. }
    destruct (height_without_width r) eqn:H3.
    { apply Hrej. unfold validation. rewrite H1, H2, H3. reflexivity. }
    destruct (url_Parse E (rawURL_of r)) as [u|e] eqn:H4.
    2:{ apply Hrej. unfold validation. rewrite H1, H2, H3, H4. reflexivity. }
    destruct (AllowInsecureURIs (options E)) eqn:H5.
    { exists u. split; [reflexivity|]. apply accepted_backend.
      unfold validation. rewrite H1, H2, H3, H4, H5. reflexivity. }
    destruct (strings.HasPrefix (url.Scheme u) "http") eqn:H6.
    { exists u. split; [reflexivity|]. apply accepted_backend.
      unfold validation. rewrite H1, H2, H3, H4, H5, H6. reflexivity. }
    apply Hrej. unfold validation. rewrite H1, H2, H3, H4, H5, H6. reflexivity.
  - intros e. destruct (String.eqb (rawURL_of r) "") eqn:H1; [discriminate|].
    destruct (width_without_height r) eqn:H2; [discriminate|].
    destruct (height_without_width r) eqn:H3; [discriminate|].
    intros _ H4. apply Hrej. unfold validation.
    rewrite H1, H2, H3, H4. reflexivity.
  - intros e _ Hd.
    assert (Hv : exists msg, validation E r = Rejected msg 406).
    { unfold validation.
      destruct (String.eqb (rawURL_of r) ""); [eexists; reflexivity|].
      destruct (width_without_height r); [eexists; reflexivity|].
      destruct (height_without_width r); [eexists; reflexivity|].
      discriminate. }
    destruct Hv as (msg & Hv). rewrite (serve_rejected _ _ _ _ Hv). reflexivity.
Qed.

(** C4.  A request with exactly one of the two dimensions supplied is
    answered with status 406 and the browser is not asked.  When its
    [url] parameter is present the message names the dimension that is
    missing; when it is blank the message is the guidance about the
    missing url, the check that comes first. *)
Theorem C4_one_dimension_not_acceptable :
  width_without_height r || height_without_width r = true ->
  http.status (w (serve E r)) = http.StatusNotAcceptable /\
  backend_invoked (serve E r) = false /\
  (rawURL_of r <> "" ->
   is_error_response (w (serve E r)) http.StatusNotAcceptable
     (if width_without_height r
      then "received width option without height argument"
      else "received height option without width argument")) /\
  (rawURL_of r = "" ->
   is_error_response (w (serve E r)) http.StatusNotAcceptable
     "url parameter missing. eg ?url=https://google.com").
Proof.
  intros Hd.
  assert (Hv : exists msg,
             validation E r = Rejected msg 406 /\
             msg = if String.eqb (rawURL_of r) ""
                   then "url parameter missing. eg ?url=https://google.com"
                   else if width_without_height r
                        then "received width option without height argument"
                        else "received height option without width argument").
  { unfold validation.
    destruct (String.eqb (rawURL_of r) ""); [eexists; split; reflexivity|].
    destruct (width_without_height r); [eexists; split; reflexivity|].
    destruct (height_without_width r); [eexists; split; reflexivity|].
    discriminate. }
  destruct Hv as (msg & Hv & Hmsg).
  split; [|split; [|split]].
  - rewrite (serve_rejected _ _ _ _ Hv). reflexivity.
  - exact (rejected_no_backend _ _ _ _ Hv).
  - intros Hraw. apply String.eqb_neq in Hraw. rewrite Hraw in Hmsg.
    rewrite (serve_rejected _ _ _ _ Hv), Hmsg. apply Error_fresh.
  - intros Hraw. apply String.eqb_eq in Hraw. rewrite Hraw in Hmsg.
    rewrite (serve_rejected _ _ _ _ Hv), Hmsg. apply Error_fresh.
Qed.

End Specification.

Lemma Error_wrote (msg : string) (code : Z) (w0 : http.ResponseWriter) :
  http.wroteHeader (http.Error msg code w0) = true.
Proof.
  unfold http.Error, http.Fprintln, http.Write, http.WriteHeader, http.Header_Set.
  cbn [http.wroteHeader]. destruct (http.wroteHeader w0); reflexivity.
Qed.

Lemma finishRequest_Error (msg : string) (code : Z) (w0 : http.ResponseWriter) :
  http.finishRequest (http.Error msg code w0) = http.Error msg code w0.
Proof. unfold http.finishRequest. rewrite Error_wrote. reflexivity. Qed.

Ltac clean_error code msg :=
  left; exists code, msg; cbn [w]; rewrite finishRequest_Error;
  apply Error_fresh.

(** On every run but those where the JPEG encoder fails after it has
    written to the response, the handler leaves one terminal response: an
    error response, that is a status and the message with nothing before
    it, or, when no call failed, an image response with its content type. *)
Lemma terminal_unless_encoder_failed_midway {Image} (E : Env Image)
  (r : http.Request) :
  encoder_failed_midway E (serve E r) = false ->
  one_terminal_response E (serve E r).
Proof.
  intros Hmid. unfold one_terminal_response.
  destruct (validation E r) as [msg code|u] eqn:Hv.
  - rewrite (serve_rejected _ _ _ _ Hv). clean_error code msg.
  - pose proof (accepted_inv _ _ _ Hv) as (_ & _ & _ & Hp & _).
    revert Hmid. unfold encoder_failed_midway, some_call_failed.
    rewrite (serve_accepted _ _ _ Hv). unfold deliver.
    rewrite (accepted_calls_before _ _ _ Hv).
    destruct (chrm_Screenshot E u) as [buf|e] eqn:Hs.
    2:{ intros _. clean_error 500 e. }
    destruct (negb (supplied (width_param r))).
    { intros _. right. cbn [w calls app existsb call_failed].
      rewrite Hp, Hs. split; [reflexivity|].
      exists "image/png", buf. split; [left; reflexivity|apply png_response]. }
    destruct (image_Decode E buf) as [img|e] eqn:Hd.
    2:{ intros _. clean_error 500 e. }
    destruct (jpeg_Encode E _) as [chunks [e|]] eqn:He;
      cbn [fst snd w calls app existsb call_failed orb]; rewrite ?He.
    + destruct chunks as [|c cs]; [|discriminate].
      intros _. left. exists 500, e. rewrite finishRequest_Error.
      apply Error_after_Content_Type.
    + intros _. right. rewrite Hp, Hs, Hd. cbn [snd orb]. split; [reflexivity|].
      exists "image/jpeg", (concat chunks).
      split; [right; reflexivity|apply jpeg_response].
Qed.

(** The dimensions the handler works with are [spec_dimension] of the two
    parameters, and two requests with the same [url] whose parameters
    come to the same two dimensions get the same response and lead to the
    same calls outside [strconv.Atoi]. *)
Lemma dimensions_through_spec_dimension {Image} (E : Env Image) :
  (forall s,
      spec_dimension s =
      match strconv.Atoi s with
      | Err _ => 0
      | Ok n => if 0 <? n then n else 0
      end) /\
  (forall r img width height,
      In (Call_Fit img width height) (calls (serve E r)) ->
      width = spec_dimension (width_param r) /\
      height = spec_dimension (height_param r)) /\
  (forall r1 r2,
      url.Get (http.Query r1) "url" = url.Get (http.Query r2) "url" ->
      spec_dimension (width_param r1) = spec_dimension (width_param r2) ->
      spec_dimension (height_param r1) = spec_dimension (height_param r2) ->
      w (serve E r1) = w (serve E r2) /\
      external (calls (serve E r1)) = external (calls (serve E r2))) /\
  (forall u,
      let r1 := request [("url", u); ("width", "abc"); ("height", "xyz")] in
      let r2 := request [("url", u)] in
      w (serve E r1) = w (serve E r2) /\
      external (calls (serve E r1)) = external (calls (serve E r2))).
Proof.
  assert (Hsame : forall r1 r2,
      url.Get (http.Query r1) "url" = url.Get (http.Query r2) "url" ->
      spec_dimension (width_param r1) = spec_dimension (width_param r2) ->
      spec_dimension (height_param r1) = spec_dimension (height_param r2) ->
      w (serve E r1) = w (serve E r2) /\
      external (calls (serve E r1)) = external (calls (serve E r2))).
  { intros r1 r2 Hu Hw Hh. rewrite !handler_paths.
    unfold paths, validation, deliver, calls_before,
      width_without_height, height_without_width, rawURL_of.
    rewrite !or_zero_spec, !supplied_spec, <- Hu, <- Hw, <- Hh.
    destruct (String.eqb _ ""); [split; reflexivity|].
    destruct (0 <? spec_dimension (width_param r1));
      destruct (0 <? spec_dimension (height_param r1)); cbn [andb orb negb];
      try (split; reflexivity);
      (destruct (url_Parse E _) as [u|e]; [|split; reflexivity]);
      (destruct (negb _ && negb _); [split; reflexivity|]);
      (destruct (chrm_Screenshot E u) as [buf|e]; [|split; reflexivity]);
      try (split; reflexivity);
      (destruct (image_Decode E buf) as [img|e]; [|split; reflexivity]);
      (destruct (snd (jpeg_Encode E _)); split; reflexivity). }
  split; [|split; [|split]].
  - intros s. unfold spec_dimension. destruct (strconv.Atoi s) as [n|e]; [|reflexivity].
    destruct (n <=? 0) eqn:H1; destruct (0 <? n) eqn:H2; try reflexivity.
    + apply Z.leb_le in H1. apply Z.ltb_lt in H2. lia.
    + apply Z.leb_gt in H1. apply Z.ltb_ge in H2. lia.
  - intros r img width height. rewrite handler_paths.
    unfold paths, deliver, calls_before. rewrite !or_zero_spec.
    destruct (validation E r) as [msg code|u]; cbn [calls].
    + destruct (String.eqb _ ""); [intros []|].
      destruct (_ || _); cbn [In]; intuition discriminate.
    + assert (Hb : ~ In (Call_Fit img width height) (calls_before (Image := Image) r)).
      { unfold calls_before. destruct (String.eqb _ ""); [intros []|].
        destruct (_ || _); cbn [In]; intuition discriminate. }
      fold (calls_before (Image := Image) r).
      destruct (chrm_Screenshot E u) as [buf|e]; cbn [calls].
      2:{ intros H. apply in_app_or in H as [H|[H|[]]]; [tauto|discriminate]. }
      destruct (negb _); cbn [calls].
      { intros H. apply in_app_or in H as [H|[H|[]]]; [tauto|discriminate]. }
      destruct (image_Decode E buf) as [im|e].
      * destruct (snd (jpeg_Encode E _)); cbn [calls]; intros H;
          repeat (apply in_app_or in H as [H|H]); try tauto;
          cbn [In] in H; intuition (try discriminate);
          match goal with H : Call_Fit _ _ _ = Call_Fit _ _ _ |- _ =>
            injection H; intros; subst; reflexivity end.
      * cbn [calls]. intros H.
        repeat (apply in_app_or in H as [H|H]); try tauto;
          cbn [In] in H; intuition discriminate.
  - exact Hsame.
  - intros u r1 r2. apply Hsame; reflexivity.
Qed.

Lemma supplied_false_iff (s : string) :
  supplied s = false <->
  match strconv.Atoi s with
  | Err _ => True
  | Ok n => n <= 0
  end.
Proof.
  unfold supplied. destruct (strconv.Atoi s) as [n|e]; [|tauto].
  rewrite Z.ltb_ge. tauto.
Qed.

(** C8.  Width and height are parsed each on its own: on every request
    with a [url] the handler calls [strconv.Atoi] on the width parameter
    and then on the height parameter, whatever the first call gave.  A
    parameter that does not parse or whose value is not positive counts
    as not supplied and is no error by itself.  When neither is supplied
    the handler goes on to parse the URL and the answer is decided by the
    URL and the capture alone: the 500 of a parse or capture failure, the
    406 of the scheme check, or else status 200 with the picture as PNG.
    Beside a valid height a bad width is a missing width, answered with
    the 406 for height without width, and the other way round.  Two
    valid dimensions reach [imaging.Fit] as parsed.  Requests with the
    same [url] whose parameters come to the same two dimensions are
    served alike; so [width=abc&height=xyz] is served exactly like a
    request without dimensions. *)
Theorem C8_dimensions_default_to_zero {Image} (E : Env Image) (r : http.Request) :
  (rawURL_of r <> "" ->
   exists rest,
     calls (serve E r) =
     Call_Atoi (width_param r) :: Call_Atoi (height_param r) :: rest) /\
  (forall s, supplied s = false <->
             match strconv.Atoi s with
             | Err _ => True
             | Ok n => n <= 0
             end) /\
  (rawURL_of r <> "" ->
   supplied (width_param r) = false ->
   supplied (height_param r) = false ->
   In (Call_Parse (rawURL_of r)) (calls (serve E r)) /\
   match url_Parse E (rawURL_of r) with
   | Err e =>
       is_error_response (w (serve E r)) http.StatusInternalServerError e
   | Ok u =>
       if negb (AllowInsecureURIs (options E)) &&
          negb (strings.HasPrefix (url.Scheme u) "http")
       then is_error_response (w (serve E r)) http.StatusNotAcceptable
              "only http(s) urls are accepted"
       else
         match chrm_Screenshot E u with
         | Err e =>
             is_error_response (w (serve E r)) http.StatusInternalServerError e
         | Ok buf => is_image_response (w (serve E r)) "image/png" buf
         end
   end) /\
  (rawURL_of r <> "" ->
   supplied (width_param r) = false ->
   supplied (height_param r) = true ->
   is_error_response (w (serve E r)) http.StatusNotAcceptable
     "received height option without width argument") /\
  (rawURL_of r <> "" ->
   supplied (width_param r) = true ->
   supplied (height_param r) = false ->
   is_error_response (w (serve E r)) http.StatusNotAcceptable
     "received width option without height argument") /\
  (forall u buf img n m,
      rawURL_of r <> "" ->
      strconv.Atoi (width_param r) = Ok n -> 0 < n ->
      strconv.Atoi (height_param r) = Ok m -> 0 < m ->
      url_Parse E (rawURL_of r) = Ok u ->
      AllowInsecureURIs (options E) = true \/
      strings.HasPrefix (url.Scheme u) "http" = true ->
      chrm_Screenshot E u = Ok buf ->
      image_Decode E buf = Ok img ->
      In (Call_Fit img n m) (calls (serve E r))) /\
  (forall r1 r2,
      url.Get (http.Query r1) "url" = url.Get (http.Query r2) "url" ->
      spec_dimension (width_param r1) = spec_dimension (width_param r2) ->
      spec_dimension (height_param r1) = spec_dimension (height_param r2) ->
      w (serve E r1) = w (serve E r2) /\
      external (calls (serve E r1)) = external (calls (serve E r2))) /\
  (forall u,
      let r1 := request [("url", u); ("width", "abc"); ("height", "xyz")] in
      let r2 := request [("url", u)] in
      supplied (width_param r1) = false /\ supplied (height_param r1) = false /\
      supplied (width_param r2) = false /\ supplied (height_param r2) = false /\
      w (serve E r1) = w (serve E r2) /\
      external (calls (serve E r1)) = external (calls (serve E r2))).
Proof.
  split; [|split; [|split; [|split; [|split; [|split; [|split]]]]]].
  - intros Hraw. apply String.eqb_neq in Hraw.
    destruct (validation E r) as [msg code|u] eqn:Hv.
    + rewrite (serve_rejected _ _ _ _ Hv). cbn [calls]. unfold calls_before.
      rewrite Hraw. destruct (_ || _); eexists; reflexivity.
    + rewrite (serve_accepted _ _ _ Hv).
      destruct (deliver_calls E r u) as (tail & -> & _).
      rewrite (accepted_calls_before _ _ _ Hv). eexists. reflexivity.
  - exact supplied_false_iff.
  - intros Hraw Hw Hh. split.
    + apply parse_reached. unfold width_without_height, height_without_width.
      rewrite Hw, Hh. auto.
    + apply String.eqb_neq in Hraw. rewrite handler_paths.
      unfold paths, validation, width_without_height, height_without_width.
      rewrite Hraw, Hw, Hh. cbn [andb].
      destruct (url_Parse E (rawURL_of r)) as [u|e]; [|apply Error_fresh].
      destruct (negb _ && negb _); [apply Error_fresh|].
      unfold deliver. rewrite Hw.
      destruct (chrm_Screenshot E u) as [buf|e]; cbn [negb w];
        [apply png_response | apply Error_fresh].
  - intros Hraw Hw Hh. apply String.eqb_neq in Hraw. rewrite handler_paths.
    unfold paths, validation, width_without_height, height_without_width.
    rewrite Hraw, Hw, Hh. cbn [andb negb w]. apply Error_fresh.
  - intros Hraw Hw Hh. apply String.eqb_neq in Hraw. rewrite handler_paths.
    unfold paths, validation, width_without_height, height_without_width.
    rewrite Hraw, Hw, Hh. cbn [andb negb w]. apply Error_fresh.
  - intros u buf img n m Hraw Hn Hn0 Hm Hm0 Hp Hsch Hs Hd.
    apply String.eqb_neq in Hraw.
    assert (Hw : supplied (width_param r) = true).
    { unfold supplied. rewrite Hn. apply Z.ltb_lt. exact Hn0. }
    assert (Hh : supplied (height_param r) = true).
    { unfold supplied. rewrite Hm. apply Z.ltb_lt. exact Hm0. }
    assert (Hzn : or_zero (Ok n) = n).
    { unfold or_zero. destruct (n <? 1) eqn:H; [apply Z.ltb_lt in H; lia|reflexivity]. }
    assert (Hzm : or_zero (Ok m) = m).
    { unfold or_zero. destruct (m <? 1) eqn:H; [apply Z.ltb_lt in H; lia|reflexivity]. }
    assert (Hv : validation E r = Accepted u).
    { unfold validation, width_without_height, height_without_width.
      rewrite Hraw, Hw, Hh, Hp. cbn [andb negb].
      destruct Hsch as [H|H]; rewrite H;
        [|destruct (AllowInsecureURIs (options E))]; reflexivity. }
    rewrite (serve_accepted _ _ _ Hv). unfold deliver.
    rewrite Hs, Hw, Hd, Hn, Hm, Hzn, Hzm. cbn [negb].
    destruct (snd (jpeg_Encode E _)); cbn [calls];
      apply in_or_app; right; left; reflexivity.
  - apply (dimensions_through_spec_dimension E).
  - intros u r1 r2. repeat (split; [reflexivity|]).
    apply (dimensions_through_spec_dimension E).
Qed.

(** C1.  The request [?url=httpx://example.com] in default mode: the
    scheme of the parsed URL is [httpx], neither [http] nor [https], and
    yet the browser is asked for it and the picture is served with status
    200, where the help text of the command promises that only URLs that
    start with [http://] or [https://] are allowed. *)
Theorem C1_httpx_reaches_backend :
  let E := goodEnv false in
  let s := serve E (request [("url", "httpx://example.com")]) in
  AllowInsecureURIs (options E) = false /\
  exists u,
    url.Parse "httpx://example.com" = Ok u /\
    url.Scheme u = "httpx" /\
    In (Call_Screenshot u) (calls s) /\
    is_image_response (w s) "image/png" png_bytes.
Proof.
  split; [reflexivity|]. eexists. split; [reflexivity|].
  split; [reflexivity|]. split.
  - vm_compute. auto 10.
  - repeat split.
Qed.

(** C4 as worded fails on [?width=5]: the request has a
    width and no height, but its [url] is blank, and the message of the
    406 is the guidance about the url, not the one that names the height. *)
Lemma C4_blank_url_counterexample :
  let E := goodEnv false in
  let r := request [("width", "5")] in
  width_without_height r = true /\
  is_error_response (w (serve E r)) http.StatusNotAcceptable
    "url parameter missing. eg ?url=https://google.com" /\
  ~ names_missing_dimension E r.
Proof.
  split; [reflexivity|]. split; [repeat split|].
  intros H. destruct (H eq_refl) as [(_ & _ & _ & Hbody & _) _].
  vm_compute in Hbody. discriminate Hbody.
Qed.

(** C2.  The request [?url=https://example.com&width=200&height=100]
    served while the connection breaks under the encoder's first write:
    the encoder returns the error of the write, and the handler calls
    [http.Error] with status 500 as it does at its other exits.  But
    status 200 and the content type [image/jpeg] went out with that first
    write, so the 500 is dropped as superfluous: what the client is sent
    is the head of a picture response, not an error response, and the
    request has not ended in one clean terminal response. *)
Theorem C2_encode_failure_after_write :
  let E := fakeEnv false (Ok png_bytes) jpeg_broken_pipe in
  let s := serve E resize_request in
  In (Call_Encode {| Dx := 200; Dy := 100 |}) (calls s) /\
  jpeg_Encode E {| Dx := 200; Dy := 100 |} =
    ([[Byte.xff; Byte.xd8]], Some "write: broken pipe") /\
  some_call_failed E s = true /\
  http.status (w s) = http.StatusOK /\
  Content_Type (w s) = "image/jpeg" /\
  http.superfluous (w s) = 1%nat /\
  (forall code msg, ~ is_error_response (response E resize_request) code msg) /\
  ~ one_terminal_response E s.
Proof.
  split; [vm_compute; auto 10|]. split; [reflexivity|].
  split; [reflexivity|]. split; [reflexivity|]. split; [reflexivity|].
  split; [reflexivity|]. split.
  - intros code msg (_ & _ & Hct & _). vm_compute in Hct. discriminate Hct.
  - intros [(code & msg & (_ & _ & Hct & _))|(Hf & _)].
    + vm_compute in Hct. discriminate Hct.
    + vm_compute in Hf. discriminate Hf.
Qed.

(** ** Concrete runs *)

Lemma blank_text_SpaceOnly : SpaceOnly blank_text.
Proof.
  apply SpaceOnly_1; [reflexivity|]. apply SpaceOnly_1; [reflexivity|].
  apply SpaceOnly_2; [reflexivity|]. apply SpaceOnly_3; [reflexivity|].
  apply SpaceOnly_nil.
Defined.

(** C9 on a [url] made of a tab, a space, a no-break space and an em
    space. *)
Lemma C9_witness :
  let r := request [("url", blank_text); ("width", "10")] in
  is_error_response (w (serve (goodEnv false) r)) http.StatusNotAcceptable
    "url parameter missing. eg ?url=https://google.com" /\
  calls (serve (goodEnv false) r) = [].
Proof.
  apply (C9_blank_url_not_acceptable (goodEnv false)
           (request [("url", blank_text); ("width", "10")])).
  exact blank_text_SpaceOnly.
Defined.

(** C8 on [?url=https://example.com&width=abc&height=-3]: neither
    parameter is a valid dimension, and the picture is served as PNG. *)
Lemma C8_witness :
  let r := request [("url", "https://example.com");
                    ("width", "abc"); ("height", "-3")] in
  In (Call_Parse "https://example.com") (calls (serve (goodEnv false) r)) /\
  is_image_response (w (serve (goodEnv false) r)) "image/png" png_bytes.
Proof.
  apply (proj1 (proj2 (proj2
           (C8_dimensions_default_to_zero (goodEnv false)
              (request [("url", "https://example.com");
                        ("width", "abc"); ("height", "-3")]))))).
  - discriminate.
  - reflexivity.
  - reflexivity.
Defined.

(** C3 on [?url=https://example.com&width=abc]. *)
Lemma C3_witness :
  let r := request [("url", "https://example.com"); ("width", "abc")] in
  is_image_response (w (serve (goodEnv false) r)) "image/png" png_bytes /\
  calls (serve (goodEnv false) r) =
  [Call_Atoi "abc"; Call_Atoi ""; Call_Parse "https://example.com";
   Call_Screenshot example_com].
Proof.
  apply (C3_png_pass_through (goodEnv false)
           (request [("url", "https://example.com"); ("width", "abc")])
           example_com png_bytes).
  - reflexivity.
  - reflexivity.
  - vm_compute. auto 10.
  - reflexivity.
Defined.

(** C6 with a browser that runs into its deadline. *)
Lemma C6_witness :
  let E := fakeEnv false (Err "context deadline exceeded") jpeg_ok in
  let r := request [("url", "https://example.com");
                    ("width", "200"); ("height", "100")] in
  is_error_response (w (serve E r)) http.StatusInternalServerError
    "context deadline exceeded" /\
  calls (serve E r) =
  [Call_Atoi "200"; Call_Atoi "100"; Call_Parse "https://example.com";
   Call_Screenshot example_com].
Proof.
  apply (C6_capture_failure
           (fakeEnv false (Err "context deadline exceeded") jpeg_ok)
           (request [("url", "https://example.com");
                     ("width", "200"); ("height", "100")])
           example_com "context deadline exceeded").
  - vm_compute. auto 10.
  - reflexivity.
Defined.

(** C7 on [?url=file:///etc/passwd] in relaxed mode. *)
Lemma C7_witness :
  In (Call_Screenshot etc_passwd)
     (calls (serve (goodEnv true) (request [("url", "file:///etc/passwd")]))).
Proof.
  apply (C7_relaxed_mode_no_scheme_filter (goodEnv true)
           (request [("url", "file:///etc/passwd")]) etc_passwd).
  - reflexivity.
  - vm_compute. auto 10.
  - reflexivity.
Defined.

(** C4 on [?url=https://example.com&height=720]. *)
Lemma C4_witness :
  let E := goodEnv false in
  let r := request [("url", "https://example.com"); ("height", "720")] in
  http.status (w (serve E r)) = http.StatusNotAcceptable /\
  backend_invoked (serve E r) = false /\
  (rawURL_of r <> "" ->
   is_error_response (w (serve E r)) http.StatusNotAcceptable
     "received height option without width argument") /\
  (rawURL_of r = "" ->
   is_error_response (w (serve E r)) http.StatusNotAcceptable
     "url parameter missing. eg ?url=https://google.com").
Proof.
  apply (C4_one_dimension_not_acceptable (goodEnv false)
           (request [("url", "https://example.com"); ("height", "720")])).
  reflexivity.
Defined.

(** A resize request with an encoder that succeeds ends in one terminal
    response. *)
Example resize_request_terminal :
  one_terminal_response (goodEnv false) (serve (goodEnv false) resize_request).
Proof.
  apply (terminal_unless_encoder_failed_midway (goodEnv false) resize_request).
  reflexivity.
Qed.
Example getScheme_https :
  url.getScheme "https://www.google.com" = Ok ("https", "//www.google.com").
Proof. reflexivity. Qed.

Example Parse_google :
  url.Parse "https://www.google.com/a?b=1#top" =
  Ok {| url.Scheme := "https"; url.Opaque := ""; url.Authority := "www.google.com";
        url.Path := "/a"; url.ForceQuery := false; url.RawQuery := "b=1";
        url.Fragment := "top" |}.
Proof. reflexivity. Qed.

Example Parse_no_scheme :
  url.Parse "google.com" =
  Ok {| url.Scheme := ""; url.Opaque := ""; url.Authority := "";
        url.Path := "google.com"; url.ForceQuery := false; url.RawQuery := "";
        url.Fragment := "" |}.
Proof. reflexivity. Qed.

Example Parse_mailto :
  url.Parse "MAILTO:a@b.c" =
  Ok {| url.Scheme := "mailto"; url.Opaque := "a@b.c"; url.Authority := "";
        url.Path := ""; url.ForceQuery := false; url.RawQuery := "";
        url.Fragment := "" |}.
Proof. reflexivity. Qed.

Example Parse_file :
  url.Parse "file:///etc/passwd" =
  Ok {| url.Scheme := "file"; url.Opaque := ""; url.Authority := "";
        url.Path := "/etc/passwd"; url.ForceQuery := false; url.RawQuery := "";
        url.Fragment := "" |}.
Proof. reflexivity. Qed.

Example Parse_missing_scheme :
  url.Parse ":foo" =
  Err ("parse " ++ quote ":foo" ++ ": missing protocol scheme")%string.
Proof. reflexivity. Qed.

Example Parse_colon_segment :
  exists e, url.Parse "1http://x" = Err e.
Proof. eexists. reflexivity. Qed.

Example TrimSpace_unicode :
  strings.TrimSpace (blank_text ++ "a b" ++ blank_text)%string = "a b".
Proof. reflexivity. Qed.

Example TrimSpace_ex :
  strings.TrimSpace "  https://a b  " = "https://a b".
Proof. reflexivity. Qed.

Example Atoi_ex :
  strconv.Atoi "1280" = Ok 1280 /\ strconv.Atoi "-7" = Ok (-7) /\
  strconv.Atoi "+0" = Ok 0 /\
  strconv.Atoi "abc" =
    Err ("strconv.Atoi: parsing " ++ quote "abc" ++ ": invalid syntax")%string /\
  strconv.Atoi "9223372036854775807" = Ok 9223372036854775807 /\
  strconv.Atoi "9223372036854775808" =
    Err ("strconv.Atoi: parsing " ++ quote "9223372036854775808" ++
         ": value out of range")%string /\
  strconv.Atoi "-9223372036854775808" = Ok (-9223372036854775808) /\
  supplied "" = false /\ supplied "12 " = false /\ supplied "1_000" = false /\
  supplied "0" = false /\ supplied "-3" = false /\ supplied "0x10" = false /\
  supplied "007" = true /\ supplied "+5" = true.
Proof. repeat split; reflexivity. Qed.

(** ** The examples of the specification *)

Example run_png :
  let s := serve (goodEnv false) (request [("url", "https://example.com")]) in
  is_image_response (w s) "image/png" png_bytes /\
  external (calls s) = [Call_Parse "https://example.com"; Call_Screenshot example_com].
Proof. split; [repeat split | reflexivity]. Qed.

Example run_jpeg :
  let s := serve (goodEnv false)
             (request [("url", "https://example.com");
                       ("width", "200"); ("height", "100")]) in
  is_image_response (w s) "image/jpeg"
    [Byte.xff; Byte.xd8; Byte.xff; Byte.xd9] /\
  external (calls s) =
  [Call_Parse "https://example.com"; Call_Screenshot example_com;
   Call_Decode png_bytes; Call_Fit {| Dx := 400; Dy := 400 |} 200 100;
   Call_Encode {| Dx := 200; Dy := 100 |}].
Proof. split; [repeat split | reflexivity]. Qed.

Example run_ftp :
  let s := serve (goodEnv false) (request [("url", "ftp://internal")]) in
  is_error_response (w s) 406 "only http(s) urls are accepted" /\
  backend_invoked s = false.
Proof. split; [repeat split | reflexivity]. Qed.

Example run_file_default :
  let s := serve (goodEnv false) (request [("url", "file:///etc/passwd")]) in
  is_error_response (w s) 406 "only http(s) urls are accepted" /\
  backend_invoked s = false.
Proof. split; [repeat split | reflexivity]. Qed.

Example run_google_com :
  let s := serve (goodEnv false) (request [("url", "google.com")]) in
  is_error_response (w s) 406 "only http(s) urls are accepted" /\
  backend_invoked s = false.
Proof. split; [repeat split | reflexivity]. Qed.

Example run_malformed :
  let s := serve (goodEnv false) (request [("url", ":foo")]) in
  is_error_response (w s) 500
    ("parse " ++ quote ":foo" ++ ": missing protocol scheme")%string /\
  backend_invoked s = false.
Proof. split; [repeat split | reflexivity]. Qed.

Example run_malformed_with_width :
  let s := serve (goodEnv false) (request [("url", ":foo"); ("width", "5")]) in
  is_error_response (w s) 406 "received width option without height argument" /\
  calls s = [Call_Atoi "5"; Call_Atoi ""].
Proof. split; [repeat split | reflexivity]. Qed.

Example run_https_prefix_only :
  let s := serve (goodEnv false) (request [("url", "HTTPS-foo://example.com")]) in
  backend_invoked s = true /\ http.status (w s) = 200.
Proof. split; reflexivity. Qed.

(** * Further properties of [handler] *)

Lemma filter_no_backend {Image} (cs : list (Call Image)) :
  existsb is_backend_call cs = false -> List.filter is_backend_call cs = [].
Proof.
  induction cs as [|c cs IH]; [reflexivity|].
  cbn [existsb List.filter]. destruct (is_backend_call c); [discriminate|].
  exact IH.
Qed.

(** X1.  The browser is asked for [u] exactly when the [url] parameter is
    present, no dimension comes without the other, [url.Parse] returns [u]
    for the trimmed parameter, and relaxed mode is on or the scheme of [u]
    starts with [http].  In particular the URL that reaches the browser is
    the parsed one, unchanged. *)
Theorem X1_backend_asked_iff {Image} (E : Env Image) (r : http.Request)
  (u : url.URL) :
  In (Call_Screenshot u) (calls (serve E r)) <->
  rawURL_of r <> "" /\
  width_without_height r = false /\ height_without_width r = false /\
  url_Parse E (rawURL_of r) = Ok u /\
  (AllowInsecureURIs (options E) = true \/
   strings.HasPrefix (url.Scheme u) "http" = true).
Proof.
  split.
  - intros Hin. apply backend_call_inv, accepted_inv in Hin.
    destruct Hin as (H1 & H2 & H3 & H4 & H5).
    apply String.eqb_neq in H1. auto.
  - intros (H1 & H2 & H3 & H4 & H5). apply accepted_backend.
    unfold validation. apply String.eqb_neq in H1. rewrite H1, H2, H3, H4.
    destruct H5 as [H5|H5]; rewrite H5;
      [|destruct (AllowInsecureURIs (options E))]; reflexivity.
Qed.

(** X2.  A request makes the browser render at most once: there is no
    retry, whatever the collaborators answer. *)
Theorem X2_backend_asked_at_most_once {Image} (E : Env Image) (r : http.Request) :
  (length (List.filter is_backend_call (calls (serve E r))) <= 1)%nat.
Proof.
  destruct (validation E r) as [msg code|u] eqn:Hv.
  - rewrite (serve_rejected _ _ _ _ Hv). cbn [calls].
    rewrite (filter_no_backend _ (calls_before_no_backend r)). cbn. lia.
  - rewrite (serve_accepted _ _ _ Hv).
    destruct (deliver_calls E r u) as (tail & -> & Ht).
    rewrite List.filter_app. cbn [List.filter is_backend_call].
    rewrite (filter_no_backend _ (calls_before_no_backend r)).
    rewrite (filter_no_backend _ Ht). cbn. lia.
Qed.

(** X3.  Resize: when both dimensions are supplied as [n] and [m], the
    capture of [u] gives [buf], [buf] decodes to [img] and the encoder
    succeeds on the fitted picture, the response has status 200 and
    content type [image/jpeg] and its body is what the encoder wrote, in
    order.  The decoder gets the capture's bytes, [imaging.Fit] gets the
    decoded picture with exactly [n] and [m], and the encoder gets the
    result of [imaging.Fit]. *)
Theorem X3_resize_success {Image} (E : Env Image) (r : http.Request)
  (u : url.URL) (buf : bytes) (img : Image) (n m : Z) (chunks : list bytes) :
  strconv.Atoi (width_param r) = Ok n -> 0 < n ->
  strconv.Atoi (height_param r) = Ok m -> 0 < m ->
  In (Call_Screenshot u) (calls (serve E r)) ->
  chrm_Screenshot E u = Ok buf ->
  image_Decode E buf = Ok img ->
  jpeg_Encode E (imaging_Fit E img n m) = (chunks, None) ->
  is_image_response (response E r) "image/jpeg" (concat chunks) /\
  calls (serve E r) =
  [Call_Atoi (width_param r); Call_Atoi (height_param r);
   Call_Parse (rawURL_of r); Call_Screenshot u; Call_Decode buf;
   Call_Fit img n m; Call_Encode (imaging_Fit E img n m)].
Proof.
  intros Hn Hn0 Hm Hm0 Hin Hs Hd He. apply backend_call_inv in Hin.
  assert (Hw : supplied (width_param r) = true).
  { unfold supplied. rewrite Hn. apply Z.ltb_lt. exact Hn0. }
  assert (Hzn : or_zero (Ok n) = n).
  { unfold or_zero. destruct (n <? 1) eqn:H; [apply Z.ltb_lt in H; lia|reflexivity]. }
  assert (Hzm : or_zero (Ok m) = m).
  { unfold or_zero. destruct (m <? 1) eqn:H; [apply Z.ltb_lt in H; lia|reflexivity]. }
  unfold response. rewrite (serve_accepted _ _ _ Hin). unfold deliver.
  rewrite Hs, Hw, Hd, Hn, Hm, Hzn, Hzm, He, (accepted_calls_before _ _ _ Hin).
  cbn [negb fst snd w calls app].
  split; [apply jpeg_response | reflexivity].
Qed.

(** X4.  A capture that does not decode: when a width is supplied, the
    capture of [u] gives [buf] and [image.Decode] fails on [buf] with [e],
    the response is the error response 500 with the text of [e]; the run
    ends with the decoder, nothing is resized or encoded. *)
Theorem X4_decode_failure {Image} (E : Env Image) (r : http.Request)
  (u : url.URL) (buf : bytes) (e : error) :
  supplied (width_param r) = true ->
  In (Call_Screenshot u) (calls (serve E r)) ->
  chrm_Screenshot E u = Ok buf ->
  image_Decode E buf = Err e ->
  is_error_response (w (serve E r)) http.StatusInternalServerError e /\
  calls (serve E r) =
  [Call_Atoi (width_param r); Call_Atoi (height_param r);
   Call_Parse (rawURL_of r); Call_Screenshot u; Call_Decode buf].
Proof.
  intros Hw Hin Hs Hd. apply backend_call_inv in Hin.
  rewrite (serve_accepted _ _ _ Hin). unfold deliver.
  rewrite Hs, Hw, Hd, (accepted_calls_before _ _ _ Hin). cbn [negb w calls app].
  split; [apply Error_fresh | reflexivity].
Qed.

(** X5.  An encoder that fails with [e] after it has called [w.Write]:
    the status 200 and the content type [image/jpeg] went out with its
    first write, the status 500 of [http.Error] comes too late and is
    dropped, and the response is not an error response, whatever the
    code and the message. *)
Theorem X5_encode_failure_midway {Image} (E : Env Image) (r : http.Request)
  (img : Image) (c : bytes) (cs : list bytes) (e : error) :
  In (Call_Encode img) (calls (serve E r)) ->
  jpeg_Encode E img = (c :: cs, Some e) ->
  http.status (w (serve E r)) = http.StatusOK /\
  Content_Type (w (serve E r)) = "image/jpeg" /\
  http.superfluous (w (serve E r)) = 1%nat /\
  (forall code msg, ~ is_error_response (response E r) code msg).
Proof.
  intros Hin He.
  destruct (validation E r) as [msg code|u] eqn:Hv.
  { exfalso. rewrite (serve_rejected _ _ _ _ Hv) in Hin. cbn [calls] in Hin.
    revert Hin. unfold calls_before.
    destruct (String.eqb _ ""); [intros []|].
    destruct (_ || _); cbn [In]; intuition discriminate. }
  revert Hin. unfold response. rewrite (serve_accepted _ _ _ Hv). unfold deliver.
  rewrite (accepted_calls_before _ _ _ Hv).
  destruct (chrm_Screenshot E u) as [buf|e0];
    [|cbn [calls app In]; intuition discriminate].
  destruct (negb (supplied (width_param r)));
    [cbn [calls app In]; intuition discriminate|].
  destruct (image_Decode E buf) as [im|e0];
    [|cbn [calls app In]; intuition discriminate].
  set (dst := imaging_Fit E im _ _).
  intros Hin.
  assert (Hdst : dst = img).
  { destruct (snd (jpeg_Encode E dst)); cbn [calls app In] in Hin;
      intuition (try discriminate); try congruence. }
  clear Hin. rewrite Hdst, He. cbn [fst snd w].
  rewrite finishRequest_Error.
  set (w0 := http.Header_Set "Content-Type" "image/jpeg" http.fresh).
  change (stream (c :: cs) w0) with (stream cs (http.Write c w0)).
  destruct (stream_wrote cs (http.Write c w0) eq_refl) as (H1 & H2 & H3 & H4 & H5).
  assert (Hct : Content_Type (http.Error e 500 (stream cs (http.Write c w0))) =
                "image/jpeg").
  { unfold Content_Type, http.Error, http.Fprintln, http.Write at 1,
      http.WriteHeader, http.Header_Set.
    cbn [http.wroteHeader http.sent]. rewrite H1.
    cbn [http.wroteHeader http.sent]. rewrite H3. reflexivity. }
  split; [|split; [exact Hct|split]].
  - unfold http.Error, http.Fprintln, http.Write at 1, http.WriteHeader,
      http.Header_Set.
    cbn [http.wroteHeader http.status]. rewrite H1.
    cbn [http.wroteHeader http.status]. rewrite H2. reflexivity.
  - unfold http.Error, http.Fprintln, http.Write at 1, http.WriteHeader,
      http.Header_Set.
    cbn [http.wroteHeader http.superfluous]. rewrite H1.
    cbn [http.wroteHeader http.superfluous]. rewrite H5. reflexivity.
  - intros code msg (_ & _ & Hc & _). rewrite Hct in Hc. discriminate Hc.
Qed.

Lemma Error_status_fresh (msg : string) (code : Z) :
  http.status (http.finishRequest (http.Error msg code http.fresh)) = code.
Proof. rewrite finishRequest_Error. reflexivity. Qed.

(** The status of the response when [http.Error] comes after the chunks
    of the encoder: 500 when nothing was written, 200 otherwise. *)
Lemma Error_status_streamed (chunks : list bytes) (e : error) :
  http.status
    (http.finishRequest
       (http.Error e 500
          (stream chunks (http.Header_Set "Content-Type" "image/jpeg" http.fresh)))) =
  match chunks with [] => 500 | _ :: _ => 200 end.
Proof.
  rewrite finishRequest_Error. destruct chunks as [|c cs]; [reflexivity|].
  set (w0 := http.Header_Set "Content-Type" "image/jpeg" http.fresh).
  change (stream (c :: cs) w0) with (stream cs (http.Write c w0)).
  destruct (stream_wrote cs (http.Write c w0) eq_refl) as (H1 & H2 & _).
  unfold http.Error, http.Fprintln, http.Write at 1, http.WriteHeader, http.Header_Set.
  cbn [http.wroteHeader http.status]. rewrite H1.
  cbn [http.wroteHeader http.status]. rewrite H2. reflexivity.
Qed.

(** What can be known of a run from its status alone. *)
Lemma status_cases {Image} (E : Env Image) (r : http.Request) :
  (http.status (response E r) = 406 /\ backend_invoked (serve E r) = false) \/
  (http.status (response E r) = 500 /\ some_call_failed E (serve E r) = true) \/
  (http.status (response E r) = 200 /\
   exists u buf, In (Call_Screenshot u) (calls (serve E r)) /\
                 chrm_Screenshot E u = Ok buf).
Proof.
  unfold response, some_call_failed.
  destruct (validation E r) as [msg code|u] eqn:Hv.
  - pose proof (rejected_no_backend _ _ _ _ Hv) as Hnb.
    rewrite (serve_rejected _ _ _ _ Hv) in *. cbn [w calls].
    rewrite Error_status_fresh. revert Hv. unfold validation, calls_before.
    destruct (String.eqb (rawURL_of r) ""); [intros [= <- <-]; auto|].
    destruct (width_without_height r); [intros [= <- <-]; auto|].
    destruct (height_without_width r); [intros [= <- <-]; auto|].
    cbn [orb].
    destruct (url_Parse E (rawURL_of r)) as [u|e] eqn:Hp.
    + destruct (_ && _); [intros [= <- <-]; auto|discriminate].
    + intros [= <- <-]. right. left. split; [reflexivity|].
      cbn [existsb call_failed]. rewrite Hp. reflexivity.
  - pose proof (accepted_backend _ _ _ Hv) as Hin.
    pose proof (accepted_inv _ _ _ Hv) as (_ & _ & _ & Hp & _).
    revert Hin. rewrite (serve_accepted _ _ _ Hv). unfold deliver.
    rewrite (accepted_calls_before _ _ _ Hv).
    destruct (chrm_Screenshot E u) as [buf|e] eqn:Hs.
    2:{ intros _. right. left. cbn [w calls]. rewrite Error_status_fresh.
        split; [reflexivity|]. cbn [app existsb call_failed].
        rewrite Hp, Hs. reflexivity. }
    destruct (negb (supplied (width_param r))).
    { intros Hin. right. right. split; [reflexivity|]. exists u, buf. auto. }
    destruct (image_Decode E buf) as [img|e] eqn:Hd.
    2:{ intros _. right. left. cbn [w calls]. rewrite Error_status_fresh.
        split; [reflexivity|]. cbn [app existsb call_failed].
        rewrite Hp, Hs, Hd. reflexivity. }
    destruct (jpeg_Encode E _) as [chunks [e|]] eqn:He; cbn [fst snd w calls].
    + intros Hin. rewrite Error_status_streamed. destruct chunks as [|c cs].
      * right. left. split; [reflexivity|]. cbn [app existsb call_failed].
        rewrite Hp, Hs, Hd, He. reflexivity.
      * right. right. split; [reflexivity|]. exists u, buf. auto.
    + intros Hin. right. right. split; [|exists u, buf; auto].
      destruct (jpeg_response chunks) as (_ & H & _). exact H.
Qed.

(** X6.  The status of a response is 200, 406 or 500 and nothing else.  A
    406 is always decided before the browser is asked, so a request that
    is answered with 406 has cost no render. *)
Theorem X6_status_codes {Image} (E : Env Image) (r : http.Request) :
  (http.status (response E r) = 200 \/ http.status (response E r) = 406 \/
   http.status (response E r) = 500) /\
  (http.status (response E r) = 406 -> backend_invoked (serve E r) = false).
Proof.
  destruct (status_cases E r) as [[H1 H2]|[[H1 H2]|[H1 (u & buf & Hin & Hs)]]];
    rewrite H1; split; auto; intros; lia.
Qed.

(** X7.  There is no status 200 without a capture that succeeded, and no
    status 500 without a call that failed. *)
Theorem X7_success_needs_capture {Image} (E : Env Image) (r : http.Request) :
  (http.status (response E r) = 200 ->
   exists u buf, In (Call_Screenshot u) (calls (serve E r)) /\
                 chrm_Screenshot E u = Ok buf) /\
  (http.status (response E r) = 500 -> some_call_failed E (serve E r) = true).
Proof.
  destruct (status_cases E r) as [[H1 H2]|[[H1 H2]|[H1 H2]]];
    rewrite H1; split; intros; try lia; assumption.
Qed.

(** ** The dimensions that reach [imaging.Fit] *)

Lemma digit_range (c : ascii) (d : Z) : strconv.digit c = Some d -> 0 <= d <= 9.
Proof.
  unfold strconv.digit.
  destruct (48 <=? byte_val c) eqn:H1; [|discriminate].
  destruct (byte_val c <=? 57) eqn:H2; [|discriminate].
  cbn [andb]. intros [= <-]. apply Z.leb_le in H1, H2. lia.
Qed.

Lemma scan_range (s : string) (n v : Z) :
  0 <= n <= strconv.maxUint64 ->
  strconv.scan s n = Ok v -> 0 <= v <= strconv.maxUint64.
Proof.
  revert n. induction s as [|c s IH]; intros n Hn; cbn [strconv.scan].
  - intros [= <-]. exact Hn.
  - destruct (strconv.digit c) as [d|] eqn:Hd; [|discriminate].
    apply digit_range in Hd.
    destruct (strconv.maxUint64 <? n * 10 + d) eqn:Hlt; [discriminate|].
    apply Z.ltb_ge in Hlt. apply IH. lia.
Qed.

Lemma ParseUint_range (s : string) (v : Z) :
  strconv.ParseUint s = Ok v -> 0 <= v <= strconv.maxUint64.
Proof.
  unfold strconv.ParseUint. destruct s; [discriminate|].
  apply scan_range. unfold strconv.maxUint64. lia.
Qed.

(** [strconv.Atoi] only returns values of a 64-bit [int]. *)
Lemma Atoi_range (s : string) (n : Z) :
  strconv.Atoi s = Ok n -> - 2 ^ 63 <= n <= 2 ^ 63 - 1.
Proof.
  unfold strconv.Atoi, strconv.ParseInt. destruct s as [|c s]; [discriminate|].
  destruct (strconv.ParseUint _) as [un|e] eqn:Hu; [|discriminate].
  apply ParseUint_range in Hu.
  destruct (Ascii.eqb c "-"); cbn [negb andb].
  - destruct (2 ^ 63 <? un) eqn:H; [discriminate|].
    apply Z.ltb_ge in H. intros [= <-]. lia.
  - destruct (2 ^ 63 <=? un) eqn:H; [discriminate|].
    apply Z.leb_gt in H. intros [= <-]. lia.
Qed.

Lemma Fit_call_inv {Image} (E : Env Image) (r : http.Request)
  (img : Image) (width height : Z) :
  In (Call_Fit img width height) (calls (serve E r)) ->
  supplied (width_param r) = true /\ supplied (height_param r) = true /\
  width = or_zero (strconv.Atoi (width_param r)) /\
  height = or_zero (strconv.Atoi (height_param r)).
Proof.
  intros Hin. destruct (validation E r) as [msg code|u] eqn:Hv.
  { exfalso. rewrite (serve_rejected _ _ _ _ Hv) in Hin. cbn [calls] in Hin.
    revert Hin. unfold calls_before.
    destruct (String.eqb _ ""); [intros []|].
    destruct (_ || _); cbn [In]; intuition discriminate. }
  pose proof (accepted_inv _ _ _ Hv) as (_ & Hwh & _).
  revert Hin. rewrite (serve_accepted _ _ _ Hv). unfold deliver.
  rewrite (accepted_calls_before _ _ _ Hv).
  destruct (chrm_Screenshot E u) as [buf|e];
    [|cbn [calls app In]; intuition discriminate].
  destruct (supplied (width_param r)) eqn:Hw;
    [|cbn [negb calls app In]; intuition discriminate].
  unfold width_without_height in Hwh. rewrite Hw in Hwh.
  destruct (supplied (height_param r)); [|discriminate].
  cbn [negb].
  destruct (image_Decode E buf) as [im|e];
    [|cbn [calls app In]; intuition discriminate].
  destruct (snd (jpeg_Encode E _)); cbn [calls app In]; intros Hin;
    intuition (try discriminate);
    match goal with H : Call_Fit _ _ _ = Call_Fit _ _ _ |- _ =>
      injection H; intros; subst; reflexivity end.
Qed.

Lemma supplied_or_zero (s : string) :
  supplied s = true -> 1 <= or_zero (strconv.Atoi s) <= 2 ^ 63 - 1.
Proof.
  unfold supplied, or_zero. destruct (strconv.Atoi s) as [n|e] eqn:Ha; [|discriminate].
  intros H. apply Z.ltb_lt in H. apply Atoi_range in Ha.
  destruct (n <? 1) eqn:H1; [apply Z.ltb_lt in H1; lia|lia].
Qed.

(** X8.  [imaging.Fit] is only ever called with a width and a height that
    are at least 1 and fit a 64-bit [int]: a dimension that is zero,
    negative, out of range or no number never reaches it. *)
Theorem X8_fit_bounds_positive {Image} (E : Env Image) (r : http.Request)
  (img : Image) (width height : Z) :
  In (Call_Fit img width height) (calls (serve E r)) ->
  1 <= width <= 2 ^ 63 - 1 /\ 1 <= height <= 2 ^ 63 - 1.
Proof.
  intros Hin. apply Fit_call_inv in Hin as (Hw & Hh & -> & ->).
  split; apply supplied_or_zero; assumption.
Qed.

(** X9.  The flag [--allow-insecure-uri] changes the outcome of a request
    in one case only: when the request is answered, without the flag,
    with the 406 of the scheme check; with the flag the browser is then
    asked.  Every other request is served in the same way with and
    without the flag. *)
Theorem X9_relaxed_only_lifts_scheme_check {Image} (E : Env Image)
  (r : http.Request) :
  serve (relaxed E) r = serve E r \/
  (AllowInsecureURIs (options E) = false /\
   is_error_response (w (serve E r)) http.StatusNotAcceptable
     "only http(s) urls are accepted" /\
   backend_invoked (serve E r) = false /\
   backend_invoked (serve (relaxed E) r) = true).
Proof.
  rewrite !handler_paths. unfold paths, validation.
  change (url_Parse (relaxed E)) with (url_Parse E).
  change (AllowInsecureURIs (options (relaxed E))) with true.
  destruct (String.eqb (rawURL_of r) "") eqn:H1; [left; reflexivity|].
  destruct (width_without_height r) eqn:H2; [left; reflexivity|].
  destruct (height_without_width r) eqn:H3; [left; reflexivity|].
  destruct (url_Parse E (rawURL_of r)) as [u|e] eqn:H4; [|left; reflexivity].
  destruct (AllowInsecureURIs (options E)) eqn:H5; [left; reflexivity|].
  destruct (strings.HasPrefix (url.Scheme u) "http") eqn:H6;
    cbn [negb andb]; [left; reflexivity|].
  right. split; [reflexivity|]. cbn [w]. split; [apply Error_fresh|].
  split.
  - unfold backend_invoked. cbn [calls]. apply calls_before_no_backend.
  - unfold backend_invoked.
    destruct (deliver_calls (relaxed E) r u) as (tail & -> & _).
    rewrite existsb_app. cbn [existsb is_backend_call].
    rewrite orb_true_r. reflexivity.
Qed.

(** * Properties of [serverCmd] and [init] *)

Lemma append_cons (a : ascii) (p q : string) :
  (String a p ++ q)%string = String a (p ++ q)%string.
Proof. reflexivity. Qed.

Lemma append_nil (q : string) : (EmptyString ++ q)%string = q.
Proof. reflexivity. Qed.

Lemma append_empty_r (p : string) : (p ++ EmptyString)%string = p.
Proof.
  induction p as [|a p IH]; [reflexivity|].
  rewrite append_cons, IH. reflexivity.
Qed.

Lemma append_assoc (p q t : string) :
  ((p ++ q) ++ t)%string = (p ++ (q ++ t))%string.
Proof.
  induction p as [|a p IH]; [reflexivity|].
  rewrite !append_cons, IH. reflexivity.
Qed.

Lemma prefix_app (p s : string) :
  String.prefix p s = true <-> exists post, s = (p ++ post)%string.
Proof.
  revert s. induction p as [|a p IH]; intros s.
  - destruct s; (split; [intros _; eexists; reflexivity | reflexivity]).
  - destruct s as [|b s]; cbn [String.prefix].
    + split; [discriminate|].
      intros (post & H). rewrite append_cons in H. discriminate H.
    + destruct (Ascii.ascii_dec a b) as [->|Hne].
      * rewrite IH. split; intros (post & H); exists post;
          rewrite append_cons in *; congruence.
      * split; [discriminate|].
        intros (post & H). rewrite append_cons in H. congruence.
Qed.

(** [strings.Contains] finds [substr] exactly when it occurs. *)
Lemma Contains_spec (s substr : string) :
  strings.Contains s substr = true <->
  exists pre post, s = (pre ++ substr ++ post)%string.
Proof.
  induction s as [|a s IH]; cbn [strings.Contains].
  - rewrite prefix_app. split.
    + intros (post & H). exists EmptyString, post. exact H.
    + intros (pre & post & H). destruct pre as [|b pre].
      * exists post. exact H.
      * rewrite append_cons in H. discriminate H.
  - rewrite orb_true_iff, prefix_app, IH. split.
    + intros [(post & H)|(pre & post & H)].
      * exists EmptyString, post. exact H.
      * exists (String a pre), post. rewrite append_cons. congruence.
    + intros (pre & post & H). destruct pre as [|b pre].
      * left. exists post. exact H.
      * right. exists pre, post. rewrite append_cons in H. congruence.
Qed.

Lemma Contains_first_byte (s substr : string) (a : ascii) :
  strings.Contains s (String a substr) = true -> strings.Contains_byte s a = true.
Proof.
  rewrite Contains_spec. intros (pre & post & ->).
  induction pre as [|b pre IH].
  - rewrite append_nil, append_cons. cbn [strings.Contains_byte].
    rewrite Ascii.eqb_refl. reflexivity.
  - rewrite append_cons. cbn [strings.Contains_byte].
    rewrite IH. apply orb_true_r.
Qed.

(** X10.  [Run] logs the exposure warning exactly when the listening
    address does not have the text [localhost] in it, wherever in the
    address that text stands.  The warning is advice only: with or
    without it the handler is registered for [/] and the server listens
    on the address. *)
Theorem X10_exposure_warning (opts : Options) (listen : string -> option error) :
  (existsb is_warning (Run opts listen) = false <->
   exists pre post, ServerAddr opts = (pre ++ "localhost" ++ post)%string) /\
  (exists before after,
      Run opts listen =
      (before ++
       [HandleFunc "/";
        Log Info [("address", ServerAddr opts)] None "server listening";
        ListenAndServe (ServerAddr opts)] ++ after)%list /\
      (forall e, In e before -> is_warning e = true) /\
      (forall e, In e after -> e = Log Fatal [] (listen (ServerAddr opts))
                                     "webserver failed" /\
                               listen (ServerAddr opts) <> None)).
Proof.
  split.
  - rewrite <- Contains_spec. unfold Run.
    destruct (strings.Contains (ServerAddr opts) "localhost");
      destruct (listen (ServerAddr opts)); cbn; split; congruence.
  - unfold Run. eexists _, _. split; [reflexivity|]. split.
    + intros e. destruct (strings.Contains _ _); cbn [negb In];
        [intros []|intros [<-|[]]; reflexivity].
    + intros e. destruct (listen (ServerAddr opts)) as [err|]; cbn [In];
        [intros [<-|[]]; split; [reflexivity|discriminate] | intros []].
Qed.

(** X11.  An address written with digits, dots and colons only, such as
    [127.0.0.1:7171], [0.0.0.0:8080] or [:8080], always gets the exposure
    warning, the loopback address included: the test looks for the text
    [localhost], not for where the address points. *)
Theorem X11_ip_literal_is_warned (opts : Options) (listen : string -> option error) :
  forallb ip_literal_byte (list_ascii_of_string (ServerAddr opts)) = true ->
  In (Log Warn [] None exposure_warning) (Run opts listen).
Proof.
  intros Hip.
  assert (Hc : strings.Contains (ServerAddr opts) "localhost" = false).
  { destruct (strings.Contains (ServerAddr opts) "localhost") eqn:Hc; [|reflexivity].
    exfalso. apply Contains_first_byte in Hc. revert Hip Hc.
    induction (ServerAddr opts) as [|b s IH];
      cbn [list_ascii_of_string forallb strings.Contains_byte]; [discriminate|].
    intros Hall Hb. apply andb_true_iff in Hall as [Hb1 Hall].
    apply orb_true_iff in Hb as [Hb|Hb]; [|exact (IH Hall Hb)].
    apply Ascii.eqb_eq in Hb. subst b. discriminate Hb1. }
  unfold Run. rewrite Hc. cbn [negb app In]. left. reflexivity.
Qed.

Lemma X11_witness :
  In (Log Warn [] None exposure_warning)
     (Run {| ServerAddr := "127.0.0.1:7171"; AllowInsecureURIs := false |}
          (fun _ => None)).
Proof.
  apply (X11_ip_literal_is_warned
           {| ServerAddr := "127.0.0.1:7171"; AllowInsecureURIs := false |}
           (fun _ => None)).
  reflexivity.
Defined.

(** X12.  Out of the box, with the defaults that [init] gives the two
    flags, [Run] logs no exposure warning, whatever happens when it
    listens, and the handler asks the browser only for URLs whose scheme
    starts with [http], whatever the request and the collaborators. *)
Theorem X12_defaults_are_safe {Image} (E : Env Image) (r : http.Request)
  (listen : string -> option error) :
  map DefValue init_flags =
    [ServerAddr init_options;
     if AllowInsecureURIs init_options then "true" else "false"] /\
  existsb is_warning (Run init_options listen) = false /\
  (forall u, In (Call_Screenshot u)
               (calls (serve (with_options init_options E) r)) ->
             strings.HasPrefix (url.Scheme u) "http" = true).
Proof.
  split; [reflexivity|]. split.
  - unfold Run. cbn [ServerAddr init_options].
    destruct (listen "localhost:7171"); reflexivity.
  - intros u Hin. apply backend_scheme_prefix in Hin; [exact Hin|reflexivity].
Qed.

(** * White space around the [url] parameter *)

Lemma SpaceOnly_app (p q : string) :
  SpaceOnly p -> SpaceOnly q -> SpaceOnly (p ++ q)%string.
Proof.
  intros Hp Hq. induction Hp as [|a s Ha _ IH|a b s Hab _ IH|a b c s Habc _ IH].
  - exact Hq.
  - rewrite append_cons. apply SpaceOnly_1; assumption.
  - rewrite !append_cons. apply SpaceOnly_2; assumption.
  - rewrite !append_cons. apply SpaceOnly_3; assumption.
Qed.

Lemma TrimLeftSpace_app_space (p s : string) :
  SpaceOnly p -> strings.TrimLeftSpace (p ++ s)%string = strings.TrimLeftSpace s.
Proof.
  induction 1 as [|a p Ha _ IH|a b p Hab _ IH|a b c p Habc _ IH].
  - reflexivity.
  - rewrite append_cons. cbn [strings.TrimLeftSpace]. rewrite Ha. exact IH.
  - rewrite !append_cons. cbn [strings.TrimLeftSpace].
    rewrite not_space1 by (apply is_space2_lead in Hab; lia).
    rewrite Hab. exact IH.
  - rewrite !append_cons. cbn [strings.TrimLeftSpace].
    pose proof (is_space3_lead _ _ _ Habc) as Hl.
    rewrite not_space1 by lia. rewrite not_space2 by lia.
    rewrite Habc. exact IH.
Qed.

Lemma TrimLeftSpace_fixed (s : string) :
  starts_with_space s = false -> strings.TrimLeftSpace s = s.
Proof.
  destruct s as [|a [|b [|c s]]]; cbn [starts_with_space strings.TrimLeftSpace];
    try reflexivity.
  - rewrite orb_false_r. intros ->. reflexivity.
  - rewrite orb_false_r. intros H. apply orb_false_elim in H as [-> ->]. reflexivity.
  - intros H. apply orb_false_elim in H as [-> H].
    apply orb_false_elim in H as [-> ->]. reflexivity.
Qed.

(** [TrimLeftSpace] takes white space off the front, and all of it. *)
Lemma TrimLeftSpace_decomp (s : string) :
  exists pre, SpaceOnly pre /\
              s = (pre ++ strings.TrimLeftSpace s)%string /\
              starts_with_space (strings.TrimLeftSpace s) = false.
Proof.
  remember (String.length s) as n eqn:Hn.
  revert s Hn. induction n as [n IH] using (well_founded_induction lt_wf).
  intros s Hn. destruct s as [|a s1].
  { exists EmptyString. repeat split. constructor. }
  cbn [strings.TrimLeftSpace]. destruct (strings.is_space1 a) eqn:Ha.
  { destruct (IH (String.length s1)) with (s := s1) as (pre & Hpre & Heq & Hst);
      [subst n; cbn [String.length]; lia | reflexivity |].
    exists (String a pre). split; [apply SpaceOnly_1; assumption|].
    split; [rewrite append_cons; congruence | exact Hst]. }
  destruct s1 as [|b s2].
  { exists EmptyString. split; [constructor|]. split; [reflexivity|].
    cbn [starts_with_space]. rewrite Ha. reflexivity. }
  destruct (strings.is_space2 a b) eqn:Hab.
  { destruct (IH (String.length s2)) with (s := s2) as (pre & Hpre & Heq & Hst);
      [subst n; cbn [String.length]; lia | reflexivity |].
    exists (String a (String b pre)). split; [apply SpaceOnly_2; assumption|].
    split; [rewrite !append_cons; congruence | exact Hst]. }
  destruct s2 as [|c s3].
  { exists EmptyString. split; [constructor|]. split; [reflexivity|].
    cbn [starts_with_space]. rewrite Ha, Hab. reflexivity. }
  destruct (strings.is_space3 a b c) eqn:Habc.
  { destruct (IH (String.length s3)) with (s := s3) as (pre & Hpre & Heq & Hst);
      [subst n; cbn [String.length]; lia | reflexivity |].
    exists (String a (String b (String c pre))).
    split; [apply SpaceOnly_3; assumption|].
    split; [rewrite !append_cons; congruence | exact Hst]. }
  exists EmptyString. split; [constructor|]. split; [reflexivity|].
  cbn [starts_with_space]. rewrite Ha, Hab, Habc. reflexivity.
Qed.

Lemma is_space2_second (a b : ascii) :
  strings.is_space2 a b = true -> utf8.continuation (byte_val b) = true.
Proof.
  unfold strings.is_space2, utf8.decode2.
  destruct (0xC2 <=? byte_val a); [|discriminate].
  destruct (byte_val a <=? 0xDF); [|discriminate].
  destruct (utf8.continuation (byte_val b)); [reflexivity|discriminate].
Qed.

Lemma is_space3_second (a b c : ascii) :
  strings.is_space3 a b c = true -> utf8.continuation (byte_val b) = true.
Proof.
  unfold strings.is_space3, utf8.decode3, utf8.continuation.
  destruct (0xE0 <=? byte_val a); [|discriminate].
  destruct (byte_val a <=? 0xEF); [|discriminate].
  cbn [andb].
  destruct ((if byte_val a =? 0xE0 then 0xA0 else 0x80) <=? byte_val b) eqn:H1;
    [|discriminate].
  destruct (byte_val b <=? (if byte_val a =? 0xED then 0x9F else 0xBF)) eqn:H2;
    [|discriminate].
  intros _. apply Z.leb_le in H1, H2.
  apply andb_true_iff. split; apply Z.leb_le.
  - destruct (byte_val a =? 0xE0); lia.
  - destruct (byte_val a =? 0xED); lia.
Qed.

Lemma is_space3_third (a b c : ascii) :
  strings.is_space3 a b c = true -> utf8.continuation (byte_val c) = true.
Proof.
  unfold strings.is_space3, utf8.decode3.
  destruct (utf8.continuation (byte_val c)); [reflexivity|].
  rewrite andb_false_r. discriminate.
Qed.

Lemma continuation_range (n : Z) :
  utf8.continuation n = true -> 0x80 <= n <= 0xBF.
Proof.
  unfold utf8.continuation. intros H. apply andb_true_iff in H as [H1 H2].
  apply Z.leb_le in H1, H2. lia.
Qed.

(** White space text does not begin with a continuation byte. *)
Lemma SpaceOnly_first (a : ascii) (s : string) :
  SpaceOnly (String a s) -> utf8.continuation (byte_val a) = false.
Proof.
  intros H.
  assert (Hr : byte_val a < 0x80 \/ 0xC2 <= byte_val a).
  { inversion H as [|? ? H1|? ? ? H2|? ? ? ? H3]; subst.
    - left. apply is_space1_ascii. exact H1.
    - right. apply is_space2_lead in H2. lia.
    - right. apply is_space3_lead in H3. lia. }
  destruct (utf8.continuation (byte_val a)) eqn:Hc; [|reflexivity].
  apply continuation_range in Hc. lia.
Qed.

Lemma starts_with_space_app (t q : string) :
  t <> EmptyString -> starts_with_space t = false -> SpaceOnly q ->
  starts_with_space (t ++ q)%string = false.
Proof.
  intros Ht Hst Hq.
  destruct q as [|p1 q1]; [rewrite append_empty_r; exact Hst|].
  pose proof (SpaceOnly_first _ _ Hq) as Hp1.
  assert (H2 : forall a, strings.is_space2 a p1 = false).
  { intros a. destruct (strings.is_space2 a p1) eqn:H; [|reflexivity].
    apply is_space2_second in H. congruence. }
  assert (H3 : forall a c, strings.is_space3 a p1 c = false).
  { intros a c. destruct (strings.is_space3 a p1 c) eqn:H; [|reflexivity].
    apply is_space3_second in H. congruence. }
  assert (H3' : forall a b, strings.is_space3 a b p1 = false).
  { intros a b. destruct (strings.is_space3 a b p1) eqn:H; [|reflexivity].
    apply is_space3_third in H. congruence. }
  destruct t as [|a [|b [|c t]]]; [congruence| | |];
    rewrite ?append_cons, ?append_nil; cbn [starts_with_space] in *.
  - rewrite orb_false_r in Hst. rewrite Hst, H2. cbn [orb].
    destruct q1; [reflexivity|apply H3].
  - rewrite orb_false_r in Hst. apply orb_false_elim in Hst as [-> ->].
    cbn [orb]. apply H3'.
  - exact Hst.
Qed.

Lemma rev_append_app (s acc : string) :
  strings.rev_append s acc = (strings.rev s ++ acc)%string.
Proof.
  unfold strings.rev. revert acc.
  induction s as [|a s IH]; intros acc; cbn [strings.rev_append].
  - reflexivity.
  - rewrite (IH (String a acc)), (IH (String a EmptyString)).
    rewrite append_assoc. reflexivity.
Qed.

Lemma rev_cons (a : ascii) (s : string) :
  strings.rev (String a s) = (strings.rev s ++ String a EmptyString)%string.
Proof. unfold strings.rev at 1. cbn [strings.rev_append]. apply rev_append_app. Qed.

Lemma rev_app (s t : string) :
  strings.rev (s ++ t)%string = (strings.rev t ++ strings.rev s)%string.
Proof.
  induction s as [|a s IH].
  - rewrite append_nil. cbn. rewrite append_empty_r. reflexivity.
  - rewrite append_cons, !rev_cons, IH, <- append_assoc. reflexivity.
Qed.

Lemma TrimLeftSpace_rev_app_space (q x : string) :
  SpaceOnly q ->
  strings.TrimLeftSpace_rev (strings.rev q ++ x)%string = strings.TrimLeftSpace_rev x.
Proof.
  intros Hq. revert x.
  induction Hq as [|a q Ha _ IH|a b q Hab _ IH|a b c q Habc _ IH]; intros x.
  - reflexivity.
  - rewrite rev_cons, append_assoc, IH.
    rewrite append_cons, append_nil. cbn [strings.TrimLeftSpace_rev].
    rewrite Ha. reflexivity.
  - rewrite !rev_cons, !append_assoc, IH.
    rewrite !append_cons, !append_nil. cbn [strings.TrimLeftSpace_rev].
    rewrite not_space1
      by (apply is_space2_second, continuation_range in Hab; lia).
    rewrite Hab. reflexivity.
  - rewrite !rev_cons, !append_assoc, IH.
    rewrite !append_cons, !append_nil. cbn [strings.TrimLeftSpace_rev].
    rewrite not_space1
      by (apply is_space3_third, continuation_range in Habc; lia).
    assert (Hbc : strings.is_space2 b c = false).
    { destruct (strings.is_space2 b c) eqn:H; [|reflexivity].
      apply is_space2_lead in H.
      apply is_space3_second, continuation_range in Habc. lia. }
    rewrite Hbc, Habc. reflexivity.
Qed.

Lemma TrimRightSpace_app_space (t q : string) :
  SpaceOnly q -> strings.TrimRightSpace (t ++ q)%string = strings.TrimRightSpace t.
Proof.
  intros Hq. unfold strings.TrimRightSpace.
  rewrite rev_app, (TrimLeftSpace_rev_app_space _ _ Hq). reflexivity.
Qed.

(** [strings.TrimSpace] does not see white space around a text. *)
Lemma TrimSpace_app_space (p s q : string) :
  SpaceOnly p -> SpaceOnly q ->
  strings.TrimSpace (p ++ s ++ q)%string = strings.TrimSpace s.
Proof.
  intros Hp Hq. unfold strings.TrimSpace.
  rewrite (TrimLeftSpace_app_space _ _ Hp).
  destruct (TrimLeftSpace_decomp s) as (pre & Hpre & Heq & Hst).
  destruct (strings.TrimLeftSpace s) as [|a t] eqn:Ht.
  - rewrite append_empty_r in Heq. subst pre.
    rewrite (TrimLeftSpace_SpaceOnly _ (SpaceOnly_app _ _ Hpre Hq)). reflexivity.
  - rewrite Heq at 1. rewrite append_assoc.
    rewrite (TrimLeftSpace_app_space _ _ Hpre).
    rewrite TrimLeftSpace_fixed
      by (apply starts_with_space_app; [discriminate|assumption..]).
    apply TrimRightSpace_app_space. exact Hq.
Qed.

(** X13.  The handler reads three things of a request: the [url]
    parameter without the white space around it, the [width] parameter
    and the [height] parameter.  Two requests that agree on the last two
    and whose [url] parameters differ by white space at either end only
    are served alike, call for call and byte for byte, whatever else they
    carry. *)
Theorem X13_surrounding_space_ignored {Image} (E : Env Image)
  (r1 r2 : http.Request) (p q : string) :
  SpaceOnly p -> SpaceOnly q ->
  url.Get (http.Query r2) "url" = (p ++ url.Get (http.Query r1) "url" ++ q)%string ->
  url.Get (http.Query r2) "width" = url.Get (http.Query r1) "width" ->
  url.Get (http.Query r2) "height" = url.Get (http.Query r1) "height" ->
  serve E r2 = serve E r1.
Proof.
  intros Hp Hq Hu Hw Hh.
  assert (Hraw : rawURL_of r2 = rawURL_of r1).
  { unfold rawURL_of. rewrite Hu. apply TrimSpace_app_space; assumption. }
  rewrite !handler_paths.
  unfold paths, validation, deliver, calls_before, width_without_height,
    height_without_width, width_param, height_param.
  rewrite Hraw, Hw, Hh. reflexivity.
Qed.

(** * What a response and a run tell *)

(** X14.  A response with status 200 has the content type that the
    dimensions ask for: [image/png] when no width is supplied,
    [image/jpeg] when one is. *)
Theorem X14_content_type_follows_dimensions {Image} (E : Env Image)
  (r : http.Request) :
  http.status (response E r) = http.StatusOK ->
  Content_Type (response E r) =
  if supplied (width_param r) then "image/jpeg" else "image/png".
Proof.
  unfold response.
  destruct (validation E r) as [msg code|u] eqn:Hv.
  - rewrite (serve_rejected _ _ _ _ Hv). cbn [w]. rewrite Error_status_fresh.
    revert Hv. unfold validation.
    destruct (String.eqb _ ""); [intros [= <- <-]; discriminate|].
    destruct (width_without_height r); [intros [= <- <-]; discriminate|].
    destruct (height_without_width r); [intros [= <- <-]; discriminate|].
    destruct (url_Parse E _); [|intros [= <- <-]; discriminate].
    destruct (_ && _); [intros [= <- <-]; discriminate|discriminate].
  - rewrite (serve_accepted _ _ _ Hv). unfold deliver.
    destruct (chrm_Screenshot E u) as [buf|e].
    2:{ cbn [w]. rewrite Error_status_fresh. discriminate. }
    destruct (supplied (width_param r)); cbn [negb w]; [|reflexivity].
    destruct (image_Decode E buf) as [img|e].
    2:{ cbn [w]. rewrite Error_status_fresh. discriminate. }
    destruct (jpeg_Encode E _) as [chunks [e|]]; cbn [fst snd w].
    + rewrite Error_status_streamed. destruct chunks as [|c cs]; [discriminate|].
      intros _. rewrite finishRequest_Error.
      set (w0 := http.Header_Set "Content-Type" "image/jpeg" http.fresh).
      change (stream (c :: cs) w0) with (stream cs (http.Write c w0)).
      destruct (stream_wrote cs (http.Write c w0) eq_refl) as (H1 & _ & H3 & _).
      unfold Content_Type, http.Error, http.Fprintln, http.Write at 1,
        http.WriteHeader, http.Header_Set.
      cbn [http.wroteHeader http.sent]. rewrite H1.
      cbn [http.wroteHeader http.sent]. rewrite H3. reflexivity.
    + intros _. destruct (jpeg_response chunks) as (_ & _ & H & _). exact H.
Qed.

(** X15.  The handler stops at the first call that fails: a call that
    came back with an error is the last call of its run. *)
Theorem X15_fail_fast {Image} (E : Env Image) (r : http.Request)
  (c : Call Image) :
  In c (removelast (calls (serve E r))) -> call_failed E c = false.
Proof.
  destruct (validation E r) as [msg code|u] eqn:Hv.
  - rewrite (serve_rejected _ _ _ _ Hv). cbn [calls]. unfold calls_before.
    destruct (String.eqb _ ""); [intros []|].
    destruct (_ || _); cbn [removelast In]; intuition (subst; reflexivity).
  - pose proof (accepted_inv _ _ _ Hv) as (_ & _ & _ & Hp & _).
    rewrite (serve_accepted _ _ _ Hv). unfold deliver.
    rewrite (accepted_calls_before _ _ _ Hv).
    destruct (chrm_Screenshot E u) as [buf|e] eqn:Hs.
    2:{ cbn [calls app removelast In].
        intuition (subst; cbn [call_failed]; rewrite ?Hp; reflexivity). }
    destruct (negb (supplied (width_param r))).
    { cbn [calls app removelast In].
      intuition (subst; cbn [call_failed]; rewrite ?Hp; reflexivity). }
    destruct (image_Decode E buf) as [img|e] eqn:Hd.
    2:{ cbn [calls app removelast In].
        intuition (subst; cbn [call_failed]; rewrite ?Hp, ?Hs; reflexivity). }
    destruct (snd (jpeg_Encode E _)); cbn [calls app removelast In];
      intuition (subst; cbn [call_failed]; rewrite ?Hp, ?Hs, ?Hd; reflexivity).
Qed.

(** X16.  Nothing but the result of the step before goes into a step:
    the decoder only sees bytes that the browser returned for the parsed
    URL, [imaging.Fit] only a picture that the decoder returned for those
    bytes, and the encoder only a picture that [imaging.Fit] returned. *)
Theorem X16_pipeline_data_flow {Image} (E : Env Image) (r : http.Request) :
  (forall buf, In (Call_Decode buf) (calls (serve E r)) ->
     exists u, url_Parse E (rawURL_of r) = Ok u /\
               chrm_Screenshot E u = Ok buf) /\
  (forall img width height,
     In (Call_Fit img width height) (calls (serve E r)) ->
     exists buf, In (Call_Decode buf) (calls (serve E r)) /\
                 image_Decode E buf = Ok img) /\
  (forall dst, In (Call_Encode dst) (calls (serve E r)) ->
     exists img width height,
       In (Call_Fit img width height) (calls (serve E r)) /\
       dst = imaging_Fit E img width height).
Proof.
  destruct (validation E r) as [msg code|u] eqn:Hv.
  - rewrite (serve_rejected _ _ _ _ Hv). cbn [calls]. unfold calls_before.
    destruct (String.eqb _ ""); [repeat split; intros; contradiction|].
    destruct (_ || _); cbn [In]; repeat split; intros; intuition discriminate.
  - pose proof (accepted_inv _ _ _ Hv) as (_ & _ & _ & Hp & _).
    rewrite (serve_accepted _ _ _ Hv). unfold deliver.
    rewrite (accepted_calls_before _ _ _ Hv).
    destruct (chrm_Screenshot E u) as [buf|e] eqn:Hs.
    2:{ cbn [calls app In]. repeat split; intros; intuition discriminate. }
    destruct (negb (supplied (width_param r))).
    { cbn [calls app In]. repeat split; intros; intuition discriminate. }
    destruct (image_Decode E buf) as [img|e] eqn:Hd.
    2:{ cbn [calls app In]. repeat split; intros; intuition (try discriminate).
        exists u. split; congruence. }
    set (wd := or_zero (strconv.Atoi (width_param r))).
    set (ht := or_zero (strconv.Atoi (height_param r))).
    assert (Hall :
      let cs := [Call_Atoi (width_param r); Call_Atoi (height_param r);
                 Call_Parse (rawURL_of r); Call_Screenshot u; Call_Decode buf;
                 Call_Fit img wd ht; Call_Encode (imaging_Fit E img wd ht)] in
      (forall buf0, In (Call_Decode buf0) cs ->
         exists u0, url_Parse E (rawURL_of r) = Ok u0 /\
                    chrm_Screenshot E u0 = Ok buf0) /\
      (forall img0 width height, In (Call_Fit img0 width height) cs ->
         exists buf0, In (Call_Decode buf0) cs /\ image_Decode E buf0 = Ok img0) /\
      (forall dst, In (Call_Encode dst) cs ->
         exists img0 width height,
           In (Call_Fit img0 width height) cs /\
           dst = imaging_Fit E img0 width height)).
    { cbn [In]. split; [|split].
      - intros buf0 H. intuition (try discriminate).
        exists u. split; congruence.
      - intros img0 w0 h0 H. intuition (try discriminate).
        exists buf. split; [auto 10|congruence].
      - intros dst H. intuition (try discriminate).
        exists img, wd, ht. split; [auto 10|congruence]. }
    destruct (snd (jpeg_Encode E _)); cbn [calls app]; exact Hall.
Qed.

(** ** Concrete runs of the further properties *)

(** X3 on [?url=https://example.com&width=200&height=100]. *)
Lemma X3_witness :
  is_image_response (response (goodEnv false) resize_request) "image/jpeg"
    [Byte.xff; Byte.xd8; Byte.xff; Byte.xd9] /\
  calls (serve (goodEnv false) resize_request) =
  [Call_Atoi "200"; Call_Atoi "100"; Call_Parse "https://example.com";
   Call_Screenshot example_com; Call_Decode png_bytes;
   Call_Fit {| Dx := 400; Dy := 400 |} 200 100;
   Call_Encode {| Dx := 200; Dy := 100 |}].
Proof.
  apply (X3_resize_success (goodEnv false) resize_request example_com
           png_bytes {| Dx := 400; Dy := 400 |} 200 100
           [[Byte.xff; Byte.xd8]; [Byte.xff; Byte.xd9]]).
  - reflexivity.
  - lia.
  - reflexivity.
  - lia.
  - vm_compute. auto 10.
  - reflexivity.
  - reflexivity.
  - reflexivity.
Defined.

(** X4 with a decoder that knows no format. *)
Lemma X4_witness :
  is_error_response (w (serve undecodableEnv resize_request))
    http.StatusInternalServerError "image: unknown format" /\
  calls (serve undecodableEnv resize_request) =
  [Call_Atoi "200"; Call_Atoi "100"; Call_Parse "https://example.com";
   Call_Screenshot example_com; Call_Decode png_bytes].
Proof.
  apply (X4_decode_failure undecodableEnv resize_request example_com
           png_bytes "image: unknown format").
  - reflexivity.
  - vm_compute. auto 10.
  - reflexivity.
  - reflexivity.
Defined.

(** X5 with an encoder that loses the connection at its first write. *)
Lemma X5_witness :
  let E := fakeEnv false (Ok png_bytes) jpeg_broken_pipe in
  http.status (w (serve E resize_request)) = http.StatusOK /\
  Content_Type (w (serve E resize_request)) = "image/jpeg" /\
  http.superfluous (w (serve E resize_request)) = 1%nat /\
  (forall code msg, ~ is_error_response (response E resize_request) code msg).
Proof.
  apply (X5_encode_failure_midway (fakeEnv false (Ok png_bytes) jpeg_broken_pipe)
           resize_request {| Dx := 200; Dy := 100 |}
           [Byte.xff; Byte.xd8] [] "write: broken pipe").
  - vm_compute. auto 10.
  - reflexivity.
Defined.

(** X8 on the same request. *)
Lemma X8_witness : 1 <= 200 <= 2 ^ 63 - 1 /\ 1 <= 100 <= 2 ^ 63 - 1.
Proof.
  apply (X8_fit_bounds_positive (goodEnv false) resize_request
           {| Dx := 400; Dy := 400 |} 200 100).
  vm_compute. auto 10.
Defined.

(** X13: blanks around the url and a parameter the handler does not
    know. *)
Lemma X13_witness :
  serve (goodEnv false)
    (request [("url", (blank_text ++ "https://example.com" ++ blank_text)%string);
              ("width", "200"); ("height", "100"); ("delay", "5")]) =
  serve (goodEnv false) resize_request.
Proof.
  apply (X13_surrounding_space_ignored (goodEnv false) resize_request
           (request [("url", (blank_text ++ "https://example.com" ++ blank_text)%string);
                     ("width", "200"); ("height", "100"); ("delay", "5")])
           blank_text blank_text).
  - exact blank_text_SpaceOnly.
  - exact blank_text_SpaceOnly.
  - reflexivity.
  - reflexivity.
  - reflexivity.
Defined.

(** X14 on the resize request. *)
Lemma X14_witness :
  Content_Type (response (goodEnv false) resize_request) = "image/jpeg".
Proof.
  apply (X14_content_type_follows_dimensions (goodEnv false) resize_request).
  reflexivity.
Defined.

(** X15: the parse of a run that went on to the capture had not failed. *)
Lemma X15_witness :
  call_failed (goodEnv false) (Call_Parse (Image := Bounds) "https://example.com") = false.
Proof.
  apply (X15_fail_fast (goodEnv false) resize_request
           (Call_Parse "https://example.com")).
  vm_compute. auto 10.
Defined.
